(** * Auto-registering IPython magics

    A shallow embedding of the notebook "Auto-registering IPython magics":
    [get_public_functions], [MagicType], [detect_magic_type], [registrars],
    [register_magic] and the cell magic [auto_register_magics], together with
    the parts of Python they call into ([exec], [inspect.isfunction],
    [inspect.getfullargspec]) and the part of IPython they register with
    ([register_line_magic], [register_cell_magic],
    [register_line_cell_magic]). *)

From Stdlib Require Import String Ascii List ZArith Bool Arith Lia.
Import ListNotations.
Open Scope string_scope.
Set Warnings "-register-all".

(** ** Python objects *)

(** [class MagicType(enum.Enum)]: three members, in declaration order. *)
Inductive MagicType : Type := LINE | CELL | LINE_CELL.

(** The five kinds of [inspect.Parameter]. *)
Inductive param_kind : Type :=
| POSITIONAL_ONLY
| POSITIONAL_OR_KEYWORD
| VAR_POSITIONAL
| KEYWORD_ONLY
| VAR_KEYWORD.

(** Literals and the statements a function body of the modelled fragment is
    made of.  A body is compiled when the [def] is executed and never run by
    the code under study. *)
Inductive literal : Type :=
| LNone
| LTrue
| LFalse
| LInt (z : Z)
| LStr (s : string).

Inductive body_stmt : Type :=
| Pass
| Return (e : option literal)
| ExprCall (callee : string) (arg : literal).

(** One declared parameter of a function: [inspect.Parameter]. [V] is the
    type of Python values, tied below. *)
Record param (V : Type) : Type := mk_param {
  p_name : string;
  p_kind : param_kind;
  p_default : option V;
  p_annotation : option V
}.
Arguments mk_param {V}.
Arguments p_name {V}.
Arguments p_kind {V}.
Arguments p_default {V}.
Arguments p_annotation {V}.

(** A function object (what [def] creates): its [__name__], its signature
    as [inspect.signature] presents it, and its body. *)
Record function_of (V : Type) : Type := mk_function {
  __name__ : string;
  parameters : list (param V);
  return_annotation : option V;
  __code__ : list body_stmt
}.
Arguments mk_function {V}.
Arguments __name__ {V}.
Arguments parameters {V}.
Arguments return_annotation {V}.
Arguments __code__ {V}.

(** Python values.  [VBuiltin] stands for a built-in function such as [len]:
    callable, but not of type [types.FunctionType]. [VEnum] is a member of
    [MagicType].  [VList] is a list, the kind of value that cannot be
    hashed. *)
Inductive value : Type :=
| VNone
| VBool (b : bool)
| VInt (z : Z)
| VStr (s : string)
| VEnum (m : MagicType)
| VBuiltin (name : string)
| VFunction (f : function_of value)
| VList (items : list value).

Definition function : Type := function_of value.

(** A [dict] with [str] keys: keys are unique and iteration follows insertion
    order, so it is kept as an association list in that order. *)
Definition dict (V : Type) : Type := list (string * V).

Definition dict_keys {V} (d : dict V) : list string := map fst d.

Definition dict_items {V} (d : dict V) : list (string * V) := d.

(** [d[k] = v]: a present key keeps its place and takes the new value, a new
    key goes last. *)
Fixpoint dict_setitem {V} (d : dict V) (k : string) (v : V) : dict V :=
  match d with
  | [] => [(k, v)]
  | (k', v') :: d' =>
      if String.eqb k' k then (k, v) :: d' else (k', v') :: dict_setitem d' k v
  end.

Fixpoint dict_get {V} (d : dict V) (k : string) : option V :=
  match d with
  | [] => None
  | (k', v') :: d' => if String.eqb k' k then Some v' else dict_get d' k
  end.

(** [k in d] *)
Definition dict_contains {V} (d : dict V) (k : string) : bool :=
  match dict_get d k with Some _ => true | None => false end.

(** The pieces of an f-string: literal text and formatted values. *)
Inductive fpart : Type :=
| FLit (s : string)
| FValue (v : value).

(** Exceptions.  [RuntimeError] carries its message and its [__cause__]
    (set by [raise ... from ...]); [OtherError] is any other exception type
    a cell's code may raise, by the name of its type. *)
Inductive exception : Type :=
| SyntaxError (msg : string)
| KeyError (key : value)
| TypeError (msg : string)
| RuntimeError (message : list fpart) (cause : option exception)
| OtherError (type_name : string).

Inductive result (A : Type) : Type :=
| OK (a : A)
| Raise (e : exception).
Arguments OK {A}.
Arguments Raise {A}.

Definition result_bind {A B} (r : result A) (k : A -> result B) : result B :=
  match r with
  | OK a => k a
  | Raise e => Raise e
  end.

(** ** The parts of [inspect] the notebook uses *)

(** [inspect.isfunction(obj)] is [isinstance(obj, types.FunctionType)]. *)
Definition isfunction (obj : value) : bool :=
  match obj with
  | VFunction _ => true
  | _ => false
  end.

(** [callable(obj)] *)
Definition callable (obj : value) : bool :=
  match obj with
  | VFunction _ | VBuiltin _ => true
  | _ => false
  end.

(** [hash(obj)] succeeds: lists cannot be hashed, the other values can. *)
Definition hashable (obj : value) : bool :=
  match obj with
  | VList _ => false
  | _ => true
  end.

(** [x is None] *)
Definition is_None (x : value) : bool :=
  match x with
  | VNone => true
  | _ => false
  end.

(** The named tuple [inspect.FullArgSpec]. *)
Record FullArgSpec : Type := mk_FullArgSpec {
  args : list string;
  varargs : option string;
  varkw : option string;
  defaults : option (list value);
  kwonlyargs : list string;
  kwonlydefaults : option (dict value);
  annotations : dict value
}.

(** The accumulators of the loop of [inspect.getfullargspec]. *)
Record argspec_acc : Type := mk_acc {
  a_posonlyargs : list string;
  a_args : list string;
  a_varargs : option string;
  a_varkw : option string;
  a_defaults : list value;
  a_kwonlyargs : list string;
  a_kwdefaults : dict value;
  a_annotations : dict value
}.

Definition add_default (d : option value) (ds : list value) : list value :=
  match d with
  | Some v => ds ++ [v]
  | None => ds
  end.

Definition add_entry (k : string) (v : option value) (d : dict value) : dict value :=
  match v with
  | Some x => dict_setitem d k x
  | None => d
  end.

(** One round of [for param in sig.parameters.values()]. *)
Definition argspec_step (a : argspec_acc) (p : param value) : argspec_acc :=
  let a' :=
    match p_kind p with
    | POSITIONAL_ONLY =>
        mk_acc (a_posonlyargs a ++ [p_name p]) (a_args a) (a_varargs a) (a_varkw a)
               (add_default (p_default p) (a_defaults a))
               (a_kwonlyargs a) (a_kwdefaults a) (a_annotations a)
    | POSITIONAL_OR_KEYWORD =>
        mk_acc (a_posonlyargs a) (a_args a ++ [p_name p]) (a_varargs a) (a_varkw a)
               (add_default (p_default p) (a_defaults a))
               (a_kwonlyargs a) (a_kwdefaults a) (a_annotations a)
    | VAR_POSITIONAL =>
        mk_acc (a_posonlyargs a) (a_args a) (Some (p_name p)) (a_varkw a)
               (a_defaults a) (a_kwonlyargs a) (a_kwdefaults a) (a_annotations a)
    | KEYWORD_ONLY =>
        mk_acc (a_posonlyargs a) (a_args a) (a_varargs a) (a_varkw a)
               (a_defaults a) (a_kwonlyargs a ++ [p_name p])
               (add_entry (p_name p) (p_default p) (a_kwdefaults a))
               (a_annotations a)
    | VAR_KEYWORD =>
        mk_acc (a_posonlyargs a) (a_args a) (a_varargs a) (Some (p_name p))
               (a_defaults a) (a_kwonlyargs a) (a_kwdefaults a) (a_annotations a)
    end in
  mk_acc (a_posonlyargs a') (a_args a') (a_varargs a') (a_varkw a')
         (a_defaults a') (a_kwonlyargs a') (a_kwdefaults a')
         (add_entry (p_name p) (p_annotation p) (a_annotations a')).

(** [if not x: x = None] on a tuple or a dict. *)
Definition none_if_empty {A} (l : list A) : option (list A) :=
  match l with
  | [] => None
  | _ => Some l
  end.

(** [inspect.getfullargspec(fn)] on a function object: [args] lists the
    positional parameters (positional-only ones first), [defaults] is the
    tuple of their default values, or [None] when there is none. *)
Definition getfullargspec (fn : function) : FullArgSpec :=
  let start :=
    mk_acc [] [] None None [] [] []
           (add_entry "return" (return_annotation fn) []) in
  let a := fold_left argspec_step (parameters fn) start in
  mk_FullArgSpec (a_posonlyargs a ++ a_args a) (a_varargs a) (a_varkw a)
                 (none_if_empty (a_defaults a))
                 (a_kwonlyargs a)
                 (none_if_empty (a_kwdefaults a))
                 (a_annotations a).

(** [t[-1]] on a tuple; [None] stands for [IndexError]. *)
Definition getitem_last {A} (t : list A) : option A :=
  nth_error t (List.length t - 1).

(** ** Identify the magic type *)

(** [detect_magic_type]: the two tests on [len(spec.args)], each followed by
    the tests on [spec.defaults]; every path that returns nothing falls
    through to the final [return None].  In the last test [and] does not
    evaluate [spec.defaults[-1]] unless the length is 1. *)
Definition detect_magic_type (fn : function) : option MagicType :=
  let spec := getfullargspec fn in
  if (List.length (args spec) =? 1)%nat then
    match defaults spec with
    | None => Some LINE
    | Some _ => None
    end
  else if (List.length (args spec) =? 2)%nat then
    match defaults spec with
    | None => Some CELL
    | Some ds =>
        if (List.length ds =? 1)%nat &&
           match getitem_last ds with
           | Some d => is_None d
           | None => false
           end
        then Some LINE_CELL
        else None
    end
  else None.

(** ** Extract functions from the cell content *)

(** The built-in [exec(source, None, locals)]: it compiles and runs [source]
    with the caller's globals and with [locals] as the local namespace, and
    either completes, leaving the bindings made by the code in [locals], or
    raises.  Python itself is not part of the notebook, so the development
    is stated over any interpreter.  Two things are fixed by this
    interface: the outcome is a function of the source text and of [locals]
    (the globals of the notebook are taken as they are, and the code of a
    cell is taken not to touch the shell), and a dictionary stays a
    dictionary ([exec_keys]: its keys stay distinct). *)
Class Interpreter : Type := {
  exec : string -> dict value -> result (dict value);
  exec_keys : forall source locals locals',
    NoDup (dict_keys locals) ->
    exec source locals = OK locals' ->
    NoDup (dict_keys locals')
}.

(** [{name: fn for name, fn in items if inspect.isfunction(fn)}]: the items
    are visited in order and each one that passes the test is stored.  The
    test passes on function objects only, so the result maps names to
    function objects. *)
Definition function_comprehension (items : list (string * value)) : dict function :=
  fold_left
    (fun acc item =>
       match snd item with
       | VFunction fn => dict_setitem acc (fst item) fn
       | _ => acc
       end)
    items [].

Section Extract.
Context {python : Interpreter}.

(** [get_public_functions]: [content] starts empty, [exec] fills it, the
    comprehension keeps the function-typed bindings.  An exception of [exec]
    is not caught. *)
Definition get_public_functions (cell : string) : result (dict function) :=
  let content := [] in
  result_bind (exec cell content) (fun content =>
  OK (function_comprehension (dict_items content))).

End Extract.

(** ** The host runtime: IPython's magic registry *)

(** [MagicsManager.magics]: the table of line magics and the table of cell
    magics, each from magic name to function. *)
Record shell : Type := mk_shell {
  magics_line : dict function;
  magics_cell : dict function
}.

(** Code that acts on the running shell and may raise: the shell is threaded
    through, and an exception leaves it as it was when raised. *)
Definition IPy (A : Type) : Type := shell -> result A * shell.

Definition ret {A} (a : A) : IPy A := fun ip => (OK a, ip).

Definition throw {A} (e : exception) : IPy A := fun ip => (Raise e, ip).

Definition bind {A B} (m : IPy A) (k : A -> IPy B) : IPy B :=
  fun ip =>
    match m ip with
    | (OK a, ip') => k a ip'
    | (Raise e, ip') => (Raise e, ip')
    end.

Definition lift {A} (r : result A) : IPy A := fun ip => (r, ip).

Notation "x <- m ;; k" := (bind m (fun x => k))
  (at level 61, m at next level, right associativity).

(** [IPython.core.magic.record_magic], with its three magic kinds. *)
Inductive magic_kind : Type := kind_line | kind_cell | kind_line_cell.

Definition record_magic (ip : shell) (kind : magic_kind) (magic_name : string)
    (func : function) : shell :=
  match kind with
  | kind_line_cell =>
      mk_shell (dict_setitem (magics_line ip) magic_name func)
               (dict_setitem (magics_cell ip) magic_name func)
  | kind_line =>
      mk_shell (dict_setitem (magics_line ip) magic_name func) (magics_cell ip)
  | kind_cell =>
      mk_shell (magics_line ip) (dict_setitem (magics_cell ip) magic_name func)
  end.

(** The three decorators of [IPython.core.magic], called on a function: the
    function is recorded under its [__name__] and returned
    ([MagicsManager.register_function]; it also stores the function as an
    attribute of its [user_magics] object, which nothing here reads).  In a
    running shell they raise nothing. *)
Definition register_magic_function (kind : magic_kind) (func : function) : IPy function :=
  fun ip => (OK func, record_magic ip kind (__name__ func) func).

Definition register_line_magic : function -> IPy function :=
  register_magic_function kind_line.

Definition register_cell_magic : function -> IPy function :=
  register_magic_function kind_cell.

Definition register_line_cell_magic : function -> IPy function :=
  register_magic_function kind_line_cell.

(** ** Register a function as magic *)

Definition MagicType_eqb (a b : MagicType) : bool :=
  match a, b with
  | LINE, LINE | CELL, CELL | LINE_CELL, LINE_CELL => true
  | _, _ => false
  end.

(** The module-level dictionary [registrars], keyed by the enum members. *)
Definition registrars : list (MagicType * (function -> IPy function)) :=
  [ (LINE, register_line_magic);
    (CELL, register_cell_magic);
    (LINE_CELL, register_line_cell_magic) ].

(** [key == member] for a key of [registrars]: an enum member equals itself
    and nothing else. *)
Definition key_eqb (key : value) (member : MagicType) : bool :=
  match key with
  | VEnum m => MagicType_eqb m member
  | _ => false
  end.

(** The search of [d[key]] among the entries, raising [KeyError(key)] when
    [key] is absent. *)
Fixpoint find_key {A} (d : list (MagicType * A)) (key : value) : result A :=
  match d with
  | [] => Raise (KeyError key)
  | (member, a) :: d' => if key_eqb key member then OK a else find_key d' key
  end.

(** [d[key]]: the key is hashed first, which raises [TypeError] on a list;
    then the entries are searched. *)
Definition getitem {A} (d : list (MagicType * A)) (key : value) : result A :=
  if hashable key then find_key d key
  else Raise (TypeError "unhashable type: 'list'").

(** [try: body except KeyError as error: handler(error)] *)
Definition try_except_KeyError {A} (body : IPy A) (handler : exception -> IPy A) : IPy A :=
  fun ip =>
    match body ip with
    | (Raise (KeyError key), ip') => handler (KeyError key) ip'
    | r => r
    end.

(** [register_magic]: the lookup and the call are both inside the [try];
    only [KeyError] is caught. *)
Definition register_magic (fn : function) (magic_type : value) : IPy unit :=
  try_except_KeyError
    (registrar <- lift (getitem registrars magic_type) ;;
     _ <- registrar fn ;;
     ret tt)
    (fun error =>
       throw (RuntimeError [FLit "Unknown magic type "; FValue magic_type] (Some error))).

(** ** Putting everything together *)

(** The value of an [Optional[MagicType]]. *)
Definition to_value (magic_type : option MagicType) : value :=
  match magic_type with
  | Some m => VEnum m
  | None => VNone
  end.

(** Truth value: [None], [False], [0], the empty string and the empty list
    are false; members of a plain [enum.Enum] and functions are true. *)
Definition truth (v : value) : bool :=
  match v with
  | VNone => false
  | VBool b => b
  | VInt z => negb (z =? 0)%Z
  | VStr s => negb (String.eqb s "")
  | VEnum _ | VBuiltin _ | VFunction _ => true
  | VList items => negb (Nat.eqb (List.length items) 0)
  end.

(** The body of the [for] loop of [auto_register_magics] on one item. *)
Definition auto_register_item (item : string * function) : IPy unit :=
  let fn := snd item in
  let magic_type := to_value (detect_magic_type fn) in
  if negb (truth magic_type) then ret tt
  else register_magic fn magic_type.

(** [for item in items: body(item)] *)
Fixpoint for_each {A} (items : list A) (body : A -> IPy unit) : IPy unit :=
  match items with
  | [] => ret tt
  | item :: rest => _ <- body item ;; for_each rest body
  end.

Section CellMagic.
Context {python : Interpreter}.

(** The cell magic [auto_register_magics(line, cell)]: the body an
    invocation runs.  (Its decorator [@register_cell_magic] registers the
    magic itself, once, when the notebook defines it.) *)
Definition auto_register_magics (line cell : string) : IPy unit :=
  public_functions <- lift (get_public_functions cell) ;;
  for_each (dict_items public_functions) auto_register_item.

End CellMagic.

(** ** A small interpreter for concrete cells

    An [Interpreter] for a fragment of Python, enough to run the cells the
    notebook tests itself with: top-level assignments [NAME = literal] and
    function definitions [def NAME(p, q=literal, ...):] followed by an
    indented body of [pass], [return], [return literal] and
    [NAME(literal)] lines.  Text outside this grammar is rejected with
    [SyntaxError], also where Python would accept it: the fragment is the
    whole language of this interpreter. *)
Module MiniPython.

Inductive token : Type :=
| NAME (s : string)
| NUMBER (z : Z)
| STRING (s : string)
| KW_DEF | KW_NONE | KW_TRUE | KW_FALSE | KW_PASS | KW_RETURN
| OP_EQ | LPAR | RPAR | COMMA | COLON.

Definition in_range (lo hi : nat) (c : ascii) : bool :=
  (lo <=? nat_of_ascii c)%nat && (nat_of_ascii c <=? hi)%nat.

Definition is_digit (c : ascii) : bool := in_range 48 57 c.

Definition is_name_start (c : ascii) : bool :=
  in_range 65 90 c || in_range 97 122 c || Ascii.eqb c "_".

Definition is_name_char (c : ascii) : bool := is_name_start c || is_digit c.

Definition is_quote (c : ascii) : bool := Ascii.eqb c "034" || Ascii.eqb c "039".

(** Words that are not names: the keywords outside the fragment, and
    [__debug__], which cannot be bound. *)
Definition reserved : list string :=
  [ "and"; "as"; "assert"; "async"; "await"; "break"; "class"; "continue";
    "del"; "elif"; "else"; "except"; "finally"; "for"; "from"; "global";
    "if"; "import"; "in"; "is"; "lambda"; "nonlocal"; "not"; "or"; "raise";
    "try"; "while"; "with"; "yield"; "__debug__" ].

Definition word_token (w : string) : option token :=
  if String.eqb w "def" then Some KW_DEF
  else if String.eqb w "None" then Some KW_NONE
  else if String.eqb w "True" then Some KW_TRUE
  else if String.eqb w "False" then Some KW_FALSE
  else if String.eqb w "pass" then Some KW_PASS
  else if String.eqb w "return" then Some KW_RETURN
  else if existsb (String.eqb w) reserved then None
  else Some (NAME w).

Definition digit_value (c : ascii) : Z := Z.of_nat (nat_of_ascii c - 48).

(** Decimal literals; one with a leading zero and more digits is rejected. *)
Definition number_token (digits : list ascii) : option token :=
  match digits with
  | [] => None
  | d :: ds =>
      if Ascii.eqb d "0" && negb (Nat.eqb (List.length ds) 0) then None
      else Some (NUMBER (fold_left (fun n c => 10 * n + digit_value c)%Z digits 0%Z))
  end.

Inductive lex_state : Type :=
| Idle
| InName (seen : list ascii)
| InNumber (seen : list ascii)
| InString (quote : ascii) (seen : list ascii).

(** A character met between tokens. *)
Definition lex_idle (c : ascii) (out : list token) : option (lex_state * list token) :=
  if Ascii.eqb c " " then Some (Idle, out)
  else if is_name_start c then Some (InName [c], out)
  else if is_digit c then Some (InNumber [c], out)
  else if is_quote c then Some (InString c [], out)
  else if Ascii.eqb c "=" then Some (Idle, OP_EQ :: out)
  else if Ascii.eqb c "(" then Some (Idle, LPAR :: out)
  else if Ascii.eqb c ")" then Some (Idle, RPAR :: out)
  else if Ascii.eqb c "," then Some (Idle, COMMA :: out)
  else if Ascii.eqb c ":" then Some (Idle, COLON :: out)
  else None.

(** The token a state holds when the text around it ends. *)
Definition lex_flush (st : lex_state) (out : list token) : option (list token) :=
  match st with
  | Idle => Some out
  | InName seen =>
      option_map (fun t => t :: out) (word_token (string_of_list_ascii (rev seen)))
  | InNumber seen => option_map (fun t => t :: out) (number_token (rev seen))
  | InString _ _ => None
  end.

(** The tokens of one line, last token first in [out]. *)
Fixpoint lex (cs : list ascii) (st : lex_state) (out : list token) : option (list token) :=
  match cs with
  | [] => option_map (@rev token) (lex_flush st out)
  | c :: cs' =>
      match st with
      | Idle =>
          match lex_idle c out with
          | Some (st', out') => lex cs' st' out'
          | None => None
          end
      | InName seen =>
          if is_name_char c then lex cs' (InName (c :: seen)) out
          else
            match lex_flush st out with
            | Some out' =>
                match lex_idle c out' with
                | Some (st', out'') => lex cs' st' out''
                | None => None
                end
            | None => None
            end
      | InNumber seen =>
          if is_digit c then lex cs' (InNumber (c :: seen)) out
          else if is_name_start c then None
          else
            match lex_flush st out with
            | Some out' =>
                match lex_idle c out' with
                | Some (st', out'') => lex cs' st' out''
                | None => None
                end
            | None => None
            end
      | InString q seen =>
          if Ascii.eqb c q
          then lex cs' Idle (STRING (string_of_list_ascii (rev seen)) :: out)
          else if Ascii.eqb c "\" || in_range 0 31 c || Ascii.eqb c "127" then None
          else lex cs' (InString q (c :: seen)) out
      end
  end.

(** The lines of a text, split at line feeds. *)
Fixpoint split_lines (cs : list ascii) (cur : list ascii) : list (list ascii) :=
  match cs with
  | [] => [rev cur]
  | c :: cs' =>
      if Ascii.eqb c "010" then rev cur :: split_lines cs' []
      else split_lines cs' (c :: cur)
  end.

(** The indentation of a line (its leading spaces) and what follows. *)
Fixpoint indentation (cs : list ascii) : nat * list ascii :=
  match cs with
  | c :: cs' =>
      if Ascii.eqb c " "
      then let (n, rest) := indentation cs' in (S n, rest)
      else (0, cs)
  | [] => (0, [])
  end.

Definition atom (t : token) : option literal :=
  match t with
  | KW_NONE => Some LNone
  | KW_TRUE => Some LTrue
  | KW_FALSE => Some LFalse
  | NUMBER z => Some (LInt z)
  | STRING s => Some (LStr s)
  | _ => None
  end.

(** The parameters of a [def] header, from the token after the opening
    parenthesis to the colon that ends the line. *)
Fixpoint parse_params (ts : list token) : option (list (string * option literal)) :=
  match ts with
  | NAME x :: RPAR :: COLON :: [] => Some [(x, None)]
  | NAME x :: COMMA :: rest =>
      option_map (cons (x, None)) (parse_params rest)
  | NAME x :: OP_EQ :: a :: RPAR :: COLON :: [] =>
      option_map (fun l => [(x, Some l)]) (atom a)
  | NAME x :: OP_EQ :: a :: COMMA :: rest =>
      match atom a, parse_params rest with
      | Some l, Some ps => Some ((x, Some l) :: ps)
      | _, _ => None
      end
  | _ => None
  end.

(** No parameter name is used twice. *)
Fixpoint distinct (names : list string) : bool :=
  match names with
  | [] => true
  | n :: rest => negb (existsb (String.eqb n) rest) && distinct rest
  end.

(** No parameter without a default follows one with a default. *)
Fixpoint defaults_last (ps : list (string * option literal)) : bool :=
  match ps with
  | [] => true
  | (_, None) :: rest => defaults_last rest
  | (_, Some _) :: rest =>
      forallb (fun p => match snd p with Some _ => true | None => false end) rest
  end.

Definition parse_header (ts : list token)
    : option (string * list (string * option literal)) :=
  match ts with
  | KW_DEF :: NAME f :: LPAR :: RPAR :: COLON :: [] => Some (f, [])
  | KW_DEF :: NAME f :: LPAR :: rest =>
      match parse_params rest with
      | Some ps =>
          if distinct (map fst ps) && defaults_last ps then Some (f, ps) else None
      | None => None
      end
  | _ => None
  end.

Definition parse_body_stmt (ts : list token) : option body_stmt :=
  match ts with
  | [KW_PASS] => Some Pass
  | [KW_RETURN] => Some (Return None)
  | [KW_RETURN; a] => option_map (fun l => Return (Some l)) (atom a)
  | [NAME g; LPAR; a; RPAR] => option_map (ExprCall g) (atom a)
  | _ => None
  end.

Inductive top_stmt : Type :=
| Assign (target : string) (e : literal)
| FunctionDef (name : string) (params : list (string * option literal))
    (body : list body_stmt).

(** A statement that starts in the first column. *)
Inductive opened : Type :=
| Simple (s : top_stmt)
| Header (name : string) (params : list (string * option literal)).

Definition parse_top (ts : list token) : option opened :=
  match ts with
  | [NAME x; OP_EQ; a] => option_map (fun l => Simple (Assign x l)) (atom a)
  | KW_DEF :: _ =>
      option_map (fun h => Header (fst h) (snd h)) (parse_header ts)
  | _ => None
  end.

(** Where the parser stands between two lines: outside any [def], or in
    one whose body has [body] so far (last line first) at indentation
    [indent] ([None] before the first body line). *)
Inductive block : Type :=
| Outside
| InDef (name : string) (params : list (string * option literal))
    (indent : option nat) (body : list body_stmt).

(** The statement a [def] amounts to once its body ends; a [def] is not
    complete without a body. *)
Definition close (b : block) (out : list top_stmt) : option (list top_stmt) :=
  match b with
  | Outside => Some out
  | InDef f ps (Some _) body => Some (FunctionDef f ps (rev body) :: out)
  | InDef _ _ None _ => None
  end.

Definition open_top (ts : list token) (out : list top_stmt)
    : option (block * list top_stmt) :=
  match parse_top ts with
  | Some (Simple s) => Some (Outside, s :: out)
  | Some (Header f ps) => Some (InDef f ps None [], out)
  | None => None
  end.

(** One line that is not blank, at indentation [n]. *)
Definition parse_line (n : nat) (ts : list token) (b : block) (out : list top_stmt)
    : option (block * list top_stmt) :=
  match n with
  | O =>
      match close b out with
      | Some out' => open_top ts out'
      | None => None
      end
  | S _ =>
      match b with
      | Outside => None
      | InDef f ps None body =>
          option_map (fun s => (InDef f ps (Some n) (s :: body), out)) (parse_body_stmt ts)
      | InDef f ps (Some k) body =>
          if Nat.eqb n k
          then option_map (fun s => (InDef f ps (Some k) (s :: body), out)) (parse_body_stmt ts)
          else None
      end
  end.

Fixpoint parse_lines (lines : list (list ascii)) (b : block) (out : list top_stmt)
    : option (list top_stmt) :=
  match lines with
  | [] => option_map (@rev top_stmt) (close b out)
  | l :: rest =>
      let (n, text) := indentation l in
      match lex text Idle [] with
      | None => None
      | Some [] => parse_lines rest b out
      | Some ts =>
          match parse_line n ts b out with
          | Some (b', out') => parse_lines rest b' out'
          | None => None
          end
      end
  end.

(** [compile(source)]: the statements of the cell, or nothing when the text
    is not in the grammar. *)
Definition compile (source : string) : option (list top_stmt) :=
  parse_lines (split_lines (list_ascii_of_string source) []) Outside [].

Definition eval (l : literal) : value :=
  match l with
  | LNone => VNone
  | LTrue => VBool true
  | LFalse => VBool false
  | LInt z => VInt z
  | LStr s => VStr s
  end.

(** The parameter a [def] declares for [name] or [name=default]: the default
    is evaluated when the [def] is executed. *)
Definition declare (p : string * option literal) : param value :=
  mk_param (fst p) POSITIONAL_OR_KEYWORD (option_map eval (snd p)) None.

(** Executing one statement binds one name in the local namespace. *)
Definition run_stmt (locals : dict value) (s : top_stmt) : dict value :=
  match s with
  | Assign x e => dict_setitem locals x (eval e)
  | FunctionDef f ps body =>
      dict_setitem locals f (VFunction (mk_function f (map declare ps) None body))
  end.

(** [exec(source, None, locals)] on the fragment. *)
Definition exec_source (source : string) (locals : dict value) : result (dict value) :=
  match compile source with
  | None => Raise (SyntaxError "invalid syntax")
  | Some stmts => OK (fold_left run_stmt stmts locals)
  end.

(** What the parser keeps true of the statements it has read and of the
    [def] it is in: the defaults of a parameter list come last. *)
Definition stmt_ok (s : top_stmt) : Prop :=
  match s with
  | FunctionDef _ ps _ => defaults_last ps = true
  | Assign _ _ => True
  end.

Definition block_ok (b : block) : Prop :=
  match b with
  | InDef _ ps _ _ => defaults_last ps = true
  | Outside => True
  end.

End MiniPython.

(** ** What the claims speak of, in the words of the specification *)

(** The function-typed bindings of a namespace, in its order. *)
Fixpoint function_bindings (content : list (string * value)) : list (string * function) :=
  match content with
  | [] => []
  | (name, VFunction fn) :: rest => (name, fn) :: function_bindings rest
  | _ :: rest => function_bindings rest
  end.

(** Step 2 of the pipeline: each extracted function with its classification. *)
Definition classified (fns : list (string * function)) : list (function * option MagicType) :=
  map (fun item => (snd item, detect_magic_type (snd item))) fns.

(** The functions whose classification is one of the three magic types. *)
Fixpoint magics_among (cl : list (function * option MagicType)) : list (function * MagicType) :=
  match cl with
  | [] => []
  | (fn, Some m) :: rest => (fn, m) :: magics_among rest
  | (_, None) :: rest => magics_among rest
  end.

(** The registrar that corresponds to a magic type. *)
Definition registrar_for (m : MagicType) : function -> IPy function :=
  match m with
  | LINE => register_line_magic
  | CELL => register_cell_magic
  | LINE_CELL => register_line_cell_magic
  end.

(** Step 3 of the pipeline: the shell after each function of the list has
    been handed to the registrar of its type, in order. *)
Definition register_each (l : list (function * MagicType)) (ip : shell) : shell :=
  fold_left (fun ip' item => snd (registrar_for (snd item) (fst item) ip')) l ip.

(** The three steps on the namespace a cell's execution leaves. *)
Definition pipeline (content : dict value) (ip : shell) : shell :=
  register_each (magics_among (classified (function_bindings content))) ip.

(** A tag that is a key of [registrars]. *)
Definition registrar_key (tag : value) : Prop :=
  exists m, tag = VEnum m /\ In m (map fst registrars).

(** The declared arguments of a function: its positional parameters, in
    order (what [inspect.getfullargspec] lists as [args]; a [*args] or
    [**kwargs] parameter and keyword-only parameters are listed apart). *)
Definition is_positional (p : param value) : bool :=
  match p_kind p with
  | POSITIONAL_ONLY | POSITIONAL_OR_KEYWORD => true
  | _ => false
  end.

Definition declared_args (fn : function) : list (param value) :=
  filter is_positional (parameters fn).

(** Python accepts no positional parameter without a default after one with
    a default, so every function object satisfies this. *)
Fixpoint defaults_trail (ps : list (param value)) : Prop :=
  match ps with
  | [] => True
  | p :: rest =>
      (p_default p <> None -> Forall (fun q => p_default q <> None) rest)
      /\ defaults_trail rest
  end.

Definition well_formed (fn : function) : Prop := defaults_trail (declared_args fn).

(** Every function bound in a namespace is well formed. *)
Definition functions_well_formed (locals : dict value) : Prop :=
  forall name fn, In (name, VFunction fn) locals -> well_formed fn.

(** The three shapes read over all the parameters a function declares, of
    whatever kind: one without default; two without defaults; two of which
    the second defaults to [None]. *)
Definition declares_shape (fn : function) (m : MagicType) : Prop :=
  match m with
  | LINE =>
      exists p, parameters fn = [p] /\ p_default p = None
  | CELL =>
      exists p q, parameters fn = [p; q] /\ p_default p = None /\ p_default q = None
  | LINE_CELL =>
      exists p q, parameters fn = [p; q] /\ p_default q = Some VNone
  end.

(** The three signature shapes the notebook lists, read over the declared
    (positional) arguments. *)
Definition has_shape (fn : function) (m : MagicType) : Prop :=
  match m with
  | LINE =>
      exists p, declared_args fn = [p] /\ p_default p = None
  | CELL =>
      exists p q, declared_args fn = [p; q] /\ p_default p = None /\ p_default q = None
  | LINE_CELL =>
      exists p q, declared_args fn = [p; q] /\ p_default p = None /\ p_default q = Some VNone
  end.

(** The default values of a list of parameters, in order. *)
Fixpoint default_values (ps : list (param value)) : list value :=
  match ps with
  | [] => []
  | p :: rest =>
      match p_default p with
      | Some v => v :: default_values rest
      | None => default_values rest
      end
  end.

(** The message and cause of the error [register_magic] raises for [tag]. *)
Definition unknown_magic_type (tag : value) : exception :=
  RuntimeError [FLit "Unknown magic type "; FValue tag] (Some (KeyError tag)).

(** The error of [register_magic] on a tag that is no key of [registrars]:
    the [RuntimeError] above when the tag can be hashed, the [TypeError] of
    the lookup itself when it cannot. *)
Definition not_a_key (tag : value) : exception :=
  if hashable tag then unknown_magic_type tag
  else TypeError "unhashable type: 'list'".

(** ** The objects of the notebook's own tests *)

Definition positional (name : string) (default : option value) : param value :=
  mk_param name POSITIONAL_OR_KEYWORD default None.

(** [def my_line_magic(line): pass] *)
Definition my_line_magic : function :=
  mk_function "my_line_magic" [positional "line" None] None [Pass].

(** [def my_cell_magic(line, cell): pass] *)
Definition my_cell_magic : function :=
  mk_function "my_cell_magic" [positional "line" None; positional "cell" None] None [Pass].

(** [def my_line_cell_magic(line, cell=None): pass] *)
Definition my_line_cell_magic : function :=
  mk_function "my_line_cell_magic"
    [positional "line" None; positional "cell" (Some VNone)] None [Pass].

(** [def my_other_function(): pass] *)
Definition my_other_function : function :=
  mk_function "my_other_function" [] None [Pass].

(** [def one_default(line=None): pass] *)
Definition one_default : function :=
  mk_function "one_default" [positional "line" (Some VNone)] None [Pass].

(** [def both_defaults(line=1, cell=None): pass] *)
Definition both_defaults : function :=
  mk_function "both_defaults"
    [positional "line" (Some (VInt 1)); positional "cell" (Some VNone)] None [Pass].

(** [def line_and_rest(line, *args, **kwargs): pass] *)
Definition line_and_rest : function :=
  mk_function "line_and_rest"
    [ positional "line" None;
      mk_param "args" VAR_POSITIONAL None None;
      mk_param "kwargs" VAR_KEYWORD None None ] None [Pass].

(** A function whose only parameter is keyword-only: [def keyword_only], with
    a bare star before [line] in its parameter list. *)
Definition keyword_only : function :=
  mk_function "keyword_only" [mk_param "line" KEYWORD_ONLY None None] None [Pass].

(** [def line_keyword_cell(line, *, cell): pass] *)
Definition line_keyword_cell : function :=
  mk_function "line_keyword_cell"
    [positional "line" None; mk_param "cell" KEYWORD_ONLY None None] None [Pass].

(** [def line_keyword_default(line, *, cell=None): pass] *)
Definition line_keyword_default : function :=
  mk_function "line_keyword_default"
    [positional "line" None; mk_param "cell" KEYWORD_ONLY (Some VNone) None] None [Pass].

Definition LF : string := String "010" EmptyString.
Definition DQ : string := String "034" EmptyString.

(** The cell the notebook tests [get_public_functions] with: a binding of
    [foo] to [None] and the definition of [bar]. *)
Definition cell_foo_bar : string :=
  (LF ++ "foo = None" ++ LF
   ++ LF
   ++ "def bar():" ++ LF
   ++ "    return " ++ DQ ++ "baz" ++ DQ ++ LF)%string.

(** [def bar(): return "baz"] *)
Definition bar : function :=
  mk_function "bar" [] None [Return (Some (LStr "baz"))].

(** A cell that is not Python: the parameter list of the [def] is cut short. *)
Definition cell_malformed : string := "def bar(:".

(** The four definitions the notebook tests [detect_magic_type] with, as
    one cell. *)
Definition cell_four_functions : string :=
  ("def my_line_magic(line):" ++ LF
   ++ "    pass" ++ LF
   ++ LF
   ++ "def my_cell_magic(line, cell):" ++ LF
   ++ "    pass" ++ LF
   ++ LF
   ++ "def my_line_cell_magic(line, cell=None):" ++ LF
   ++ "    pass" ++ LF
   ++ LF
   ++ "def my_other_function():" ++ LF
   ++ "    pass")%string.

(** A shell in which no magic is registered yet. *)
Definition no_magics : shell := mk_shell [] [].

(** The shell after [%%auto_register_magics] on the cell of the four
    functions: one line magic, one cell magic, one magic that is both, and
    nothing for the function without arguments. *)
Definition three_magics : shell :=
  mk_shell
    [("my_line_magic", my_line_magic); ("my_line_cell_magic", my_line_cell_magic)]
    [("my_cell_magic", my_cell_magic); ("my_line_cell_magic", my_line_cell_magic)].

(** ** What the further properties speak of *)

(** [d.update(items)]: the items are stored one after the other. *)
Definition dict_update {V} (d : dict V) (items : list (string * V)) : dict V :=
  fold_left (fun d' item => dict_setitem d' (fst item) (snd item)) items d.

(** The magic types whose registrar writes the table of line magics, and
    those whose registrar writes the table of cell magics. *)
Definition line_kind (m : MagicType) : bool :=
  match m with
  | LINE | LINE_CELL => true
  | CELL => false
  end.

Definition cell_kind (m : MagicType) : bool :=
  match m with
  | CELL | LINE_CELL => true
  | LINE => false
  end.

(** The entries a list of registrations stores in one of the two tables:
    each function of a fitting type, under its [__name__], in order. *)
Definition magics_of (table : MagicType -> bool) (l : list (function * MagicType))
    : list (string * function) :=
  map (fun item => (__name__ (fst item), fst item))
      (filter (fun item => table (snd item)) l).

(** The registrations the cell magic makes on the namespace a cell leaves. *)
Definition registrations (content : dict value) : list (function * MagicType) :=
  magics_among (classified (function_bindings content)).

(** Every function of the namespace is bound under its own [__name__], as a
    [def] statement binds it. *)
Definition named_as_bound (content : dict value) : Prop :=
  forall name fn, In (name, VFunction fn) content -> __name__ fn = name.

(** The second [my_line_magic] of the notebook:
    [def my_line_magic(line): print("This is my line magic!")] *)
Definition my_line_magic_print : function :=
  mk_function "my_line_magic" [positional "line" None] None
    [ExprCall "print" (LStr "This is my line magic!")].

(** [def three_arguments(line, cell, extra=None): pass] *)
Definition three_arguments : function :=
  mk_function "three_arguments"
    [ positional "line" None; positional "cell" None; positional "extra" (Some VNone) ]
    None [Pass].

(** A function of two arguments under other names, the first
    positional-only, the second annotated:
    [def renamed(x, /, y: "str"): pass] *)
Definition renamed : function :=
  mk_function "renamed"
    [ mk_param "x" POSITIONAL_ONLY None None;
      mk_param "y" POSITIONAL_OR_KEYWORD None (Some (VStr "str")) ] None [Pass].

(** * Properties *)

Open Scope list_scope.

(** ** Dictionaries *)

Section DictFacts.
Context {V : Type}.

Lemma dict_setitem_new (d : dict V) (k : string) (v : V) :
  ~ In k (dict_keys d) -> dict_setitem d k v = d ++ [(k, v)].
Proof.
  induction d as [| [k' v'] d IH]; simpl; intros Hk.
  - reflexivity.
  - destruct (String.eqb_spec k' k) as [-> | Hne].
    + exfalso. apply Hk. now left.
    + f_equal. apply IH. intros Hin. apply Hk. now right.
Qed.

Lemma dict_setitem_keys_in (d : dict V) (k k0 : string) (v : V) :
  In k0 (dict_keys (dict_setitem d k v)) <-> k0 = k \/ In k0 (dict_keys d).
Proof.
  induction d as [| [k' v'] d IH]; simpl.
  - intuition.
  - destruct (String.eqb_spec k' k) as [-> | Hne]; simpl.
    + intuition.
    + rewrite IH. intuition.
Qed.

Lemma dict_setitem_NoDup (d : dict V) (k : string) (v : V) :
  NoDup (dict_keys d) -> NoDup (dict_keys (dict_setitem d k v)).
Proof.
  induction d as [| [k' v'] d IH]; simpl; intros Hd.
  - constructor; [intros [] | constructor].
  - inversion Hd as [| ? ? Hnotin Hrest]; subst.
    destruct (String.eqb_spec k' k) as [-> | Hne]; simpl.
    + now constructor.
    + constructor.
      * rewrite dict_setitem_keys_in. intros [Heq | Hin]; [now apply Hne | now apply Hnotin].
      * now apply IH.
Qed.

Lemma dict_setitem_In (d : dict V) (k k0 : string) (v v0 : V) :
  In (k0, v0) (dict_setitem d k v) -> (k0 = k /\ v0 = v) \/ In (k0, v0) d.
Proof.
  induction d as [| [k' v'] d IH]; simpl.
  - intros [H | []]. inversion H. now left.
  - destruct (String.eqb k' k); simpl; intros [H | H].
    + inversion H. now left.
    + right. now right.
    + right. now left.
    + destruct (IH H) as [? | ?]; [now left | right; now right].
Qed.

Lemma dict_get_setitem (d : dict V) (k : string) (v : V) :
  dict_get (dict_setitem d k v) k = Some v.
Proof.
  induction d as [| [k' v'] d IH]; simpl.
  - now rewrite String.eqb_refl.
  - destruct (String.eqb k' k) eqn:Hk; simpl.
    + now rewrite String.eqb_refl.
    + now rewrite Hk.
Qed.

End DictFacts.

(** ** The comprehension of [get_public_functions] *)

Lemma function_bindings_In (content : list (string * value)) (name : string) (fn : function) :
  In (name, fn) (function_bindings content) <-> In (name, VFunction fn) content.
Proof.
  induction content as [| [k v] rest IH]; simpl; [easy |].
  destruct v; simpl; rewrite IH; split; intros H;
    try (destruct H as [H | H]; [inversion H; subst |]); auto.
Qed.

Lemma function_bindings_isfunction (content : list (string * value)) :
  map (fun item => (fst item, VFunction (snd item))) (function_bindings content)
  = filter (fun item => isfunction (snd item)) content.
Proof.
  induction content as [| [k v] rest IH]; simpl; [easy |].
  destruct v; simpl; now rewrite ?IH.
Qed.

(** On the items of a dictionary the comprehension stores each function-typed
    binding under a new key: it is the list of those bindings. *)
Lemma comprehension_from (items : list (string * value)) (acc : dict function) :
  NoDup (dict_keys acc ++ dict_keys items) ->
  fold_left
    (fun acc item =>
       match snd item with
       | VFunction fn => dict_setitem acc (fst item) fn
       | _ => acc
       end)
    items acc
  = acc ++ function_bindings items.
Proof.
  revert acc.
  induction items as [| [k v] rest IH]; simpl; intros acc Hnd.
  - now rewrite app_nil_r.
  - assert (Hk : ~ In k (dict_keys acc)).
    { intros Hin. apply NoDup_remove_2 in Hnd. apply Hnd.
      apply in_or_app. now left. }
    assert (Hrest : NoDup (dict_keys acc ++ dict_keys rest))
      by now apply NoDup_remove_1 in Hnd.
    destruct v; try now apply IH.
    rewrite IH.
    + rewrite (dict_setitem_new _ _ _ Hk). now rewrite <- app_assoc.
    + rewrite (dict_setitem_new _ _ _ Hk).
      unfold dict_keys in *. rewrite map_app. simpl. now rewrite <- app_assoc.
Qed.

Lemma function_comprehension_bindings (content : dict value) :
  NoDup (dict_keys content) ->
  function_comprehension (dict_items content) = function_bindings content.
Proof.
  intros Hnd. unfold function_comprehension, dict_items.
  now rewrite comprehension_from.
Qed.

(** ** [inspect.getfullargspec] *)

Lemma argspec_fold (ps : list (param value)) (a : argspec_acc) :
  let a' := fold_left argspec_step ps a in
  List.length (a_posonlyargs a' ++ a_args a')
  = List.length (a_posonlyargs a ++ a_args a) + List.length (filter is_positional ps)
  /\ a_defaults a' = a_defaults a ++ default_values (filter is_positional ps).
Proof.
  revert a.
  induction ps as [| p ps IH]; intros a; simpl.
  - split; [lia | now rewrite app_nil_r].
  - destruct (IH (argspec_step a p)) as [Hlen Hdef].
    rewrite Hlen, Hdef. clear IH Hlen Hdef.
    unfold argspec_step, is_positional, add_default.
    destruct (p_kind p); simpl; rewrite ?length_app; simpl;
      try (destruct (p_default p); simpl; rewrite <- ?app_assoc; simpl);
      split; try reflexivity; try lia; now rewrite ?app_nil_r.
Qed.

Lemma getfullargspec_args (fn : function) :
  List.length (args (getfullargspec fn)) = List.length (declared_args fn).
Proof.
  unfold getfullargspec, declared_args. simpl.
  now rewrite (proj1 (argspec_fold (parameters fn) _)).
Qed.

Lemma getfullargspec_defaults (fn : function) :
  defaults (getfullargspec fn) = none_if_empty (default_values (declared_args fn)).
Proof.
  unfold getfullargspec, declared_args. simpl.
  now rewrite (proj2 (argspec_fold (parameters fn) _)).
Qed.

(** [detect_magic_type] read off the declared arguments. *)
Lemma detect_magic_type_declared (fn : function) :
  detect_magic_type fn =
  match declared_args fn with
  | [p] =>
      match p_default p with
      | None => Some LINE
      | Some _ => None
      end
  | [p; q] =>
      match p_default p, p_default q with
      | None, None => Some CELL
      | None, Some VNone => Some LINE_CELL
      | Some VNone, None => Some LINE_CELL
      | _, _ => None
      end
  | _ => None
  end.
Proof.
  unfold detect_magic_type.
  rewrite getfullargspec_args, getfullargspec_defaults.
  destruct (declared_args fn) as [| p [| q [| r rest]]]; simpl; try reflexivity.
  - now destruct (p_default p).
  - destruct (p_default p) as [[] |], (p_default q) as [[] |]; reflexivity.
Qed.

(** ** Claims on [detect_magic_type] *)

(** The assertions of the notebook on [detect_magic_type]. *)
Example notebook_detect_magic_type :
  detect_magic_type my_line_magic = Some LINE
  /\ detect_magic_type my_cell_magic = Some CELL
  /\ detect_magic_type my_line_cell_magic = Some LINE_CELL
  /\ detect_magic_type my_other_function = None.
Proof. repeat split; reflexivity. Qed.

(** C6, as stated, fails: [keyword_only] declares exactly one argument, with
    no default value, yet it is not classified [MagicType.LINE]: the
    argument is keyword-only, and [spec.args] lists positional parameters
    only. *)
Lemma detect_one_argument_fails :
  detect_magic_type keyword_only = None
  /\ ~ (forall (fn : function) (p : param value),
          parameters fn = [p] ->
          p_default p = None ->
          detect_magic_type fn = Some LINE).
Proof.
  split; [reflexivity |].
  intros claim.
  specialize (claim keyword_only (mk_param "line" KEYWORD_ONLY None None) eq_refl eq_refl).
  discriminate claim.
Qed.

(** C6, amended. A function with exactly one positional parameter, that has
    no default value, is classified [MagicType.LINE]; a [*args] or
    [**kwargs] parameter and keyword-only parameters are not counted. *)
Theorem detect_one_argument (fn : function) (p : param value) :
  declared_args fn = [p] ->
  p_default p = None ->
  detect_magic_type fn = Some LINE.
Proof.
  intros Hargs Hdef.
  rewrite detect_magic_type_declared, Hargs, Hdef.
  reflexivity.
Qed.

Lemma detect_one_argument_witness :
  detect_magic_type my_line_magic = Some LINE.
Proof.
  apply (detect_one_argument my_line_magic (positional "line" None)); reflexivity.
Defined.

(** C7, as stated, fails: [line_keyword_cell] declares exactly two
    arguments, both without default value, yet it is classified
    [MagicType.LINE] and not [MagicType.CELL]: its second argument is
    keyword-only. *)
Lemma detect_two_arguments_fails :
  detect_magic_type line_keyword_cell = Some LINE
  /\ ~ (forall (fn : function) (p q : param value),
          parameters fn = [p; q] ->
          p_default p = None ->
          p_default q = None ->
          detect_magic_type fn = Some CELL).
Proof.
  split; [reflexivity |].
  intros claim.
  specialize (claim line_keyword_cell (positional "line" None)
                    (mk_param "cell" KEYWORD_ONLY None None) eq_refl eq_refl eq_refl).
  discriminate claim.
Qed.

(** C7, amended. A function with exactly two positional parameters, both
    without default value, is classified [MagicType.CELL]; a [*args] or
    [**kwargs] parameter and keyword-only parameters are not counted. *)
Theorem detect_two_arguments (fn : function) (p q : param value) :
  declared_args fn = [p; q] ->
  p_default p = None ->
  p_default q = None ->
  detect_magic_type fn = Some CELL.
Proof.
  intros Hargs Hp Hq.
  rewrite detect_magic_type_declared, Hargs, Hp, Hq.
  reflexivity.
Qed.

Lemma detect_two_arguments_witness :
  detect_magic_type my_cell_magic = Some CELL.
Proof.
  apply (detect_two_arguments my_cell_magic
           (positional "line" None) (positional "cell" None)); reflexivity.
Defined.

(** C8. A function with no declared argument is classified as undetermined:
    [detect_magic_type] returns [None]. *)
Theorem detect_no_argument (fn : function) :
  declared_args fn = [] ->
  detect_magic_type fn = None.
Proof.
  intros Hargs.
  rewrite detect_magic_type_declared, Hargs.
  reflexivity.
Qed.

Lemma detect_no_argument_witness :
  detect_magic_type my_other_function = None.
Proof.
  apply (detect_no_argument my_other_function); reflexivity.
Defined.

(** C2, as stated, fails, in two ways.  [both_defaults] declares two
    arguments and its second one defaults to [None], yet it is classified
    [None] (its [defaults] tuple has two entries).  [line_keyword_default]
    declares two arguments of which only the second has a default, [None],
    yet it is classified [MagicType.LINE]: that argument is keyword-only. *)
Lemma detect_second_default_None_fails :
  detect_magic_type both_defaults = None
  /\ detect_magic_type line_keyword_default = Some LINE
  /\ ~ (forall (fn : function) (p q : param value),
          parameters fn = [p; q] ->
          p_default q = Some VNone ->
          detect_magic_type fn = Some LINE_CELL)
  /\ ~ (forall (fn : function) (p q : param value),
          parameters fn = [p; q] ->
          p_default p = None ->
          p_default q = Some VNone ->
          detect_magic_type fn = Some LINE_CELL).
Proof.
  split; [reflexivity | split; [reflexivity | split]].
  - intros claim.
    specialize (claim both_defaults (positional "line" (Some (VInt 1)))
                      (positional "cell" (Some VNone)) eq_refl eq_refl).
    discriminate claim.
  - intros claim.
    specialize (claim line_keyword_default (positional "line" None)
                      (mk_param "cell" KEYWORD_ONLY (Some VNone) None)
                      eq_refl eq_refl eq_refl).
    discriminate claim.
Qed.

(** C2, amended. A function with exactly two positional parameters, of
    which only the second has a default value and that value is [None], is
    classified [MagicType.LINE_CELL]; a [*args] or [**kwargs] parameter and
    keyword-only parameters are not counted. *)
Theorem detect_second_default_None (fn : function) (p q : param value) :
  declared_args fn = [p; q] ->
  p_default p = None ->
  p_default q = Some VNone ->
  detect_magic_type fn = Some LINE_CELL.
Proof.
  intros Hargs Hp Hq.
  rewrite detect_magic_type_declared, Hargs, Hp, Hq.
  reflexivity.
Qed.

Lemma detect_second_default_None_witness :
  detect_magic_type my_line_cell_magic = Some LINE_CELL.
Proof.
  apply (detect_second_default_None my_line_cell_magic
           (positional "line" None) (positional "cell" (Some VNone))); reflexivity.
Defined.

(** No shape fits a list of declared arguments of another length. *)
Ltac wrong_length m :=
  let H := fresh "H" in
  let Heq := fresh "Heq" in
  destruct m; simpl; intros H;
  [ destruct H as (? & Heq & _)
  | destruct H as (? & ? & Heq & _)
  | destruct H as (? & ? & Heq & _) ];
  discriminate Heq.

(** [detect_magic_type] returns a magic type exactly on the shape of that
    type, for the functions Python can define. *)
Lemma detect_magic_type_shape (fn : function) (m : MagicType) :
  well_formed fn ->
  detect_magic_type fn = Some m <-> has_shape fn m.
Proof.
  unfold well_formed, has_shape. intros Hwf.
  rewrite detect_magic_type_declared.
  destruct (declared_args fn) as [| p [| q [| r rest]]] eqn:Hargs.
  - split; [discriminate |].
    wrong_length m.
  - destruct (p_default p) as [d |] eqn:Hp; split.
    + discriminate.
    + destruct m; simpl; intros H.
      * destruct H as (p' & Heq & Hnone). inversion Heq; subst. congruence.
      * destruct H as (p' & q' & Heq & _). discriminate.
      * destruct H as (p' & q' & Heq & _). discriminate.
    + intros H. inversion H; subst. simpl. now exists p.
    + destruct m; simpl; intros H; try reflexivity;
        destruct H as (p' & q' & Heq & _); discriminate.
  - simpl in Hwf. destruct Hwf as [Htrail _].
    destruct (p_default p) as [dp |] eqn:Hp.
    + assert (Hq : p_default q <> None).
      { assert (Hsome : Some dp <> None) by discriminate.
        specialize (Htrail Hsome). now inversion Htrail. }
      destruct (p_default q) as [dq |] eqn:Hq'; [| now elim Hq].
      split.
      * destruct dp; discriminate.
      * destruct m; simpl; intros H.
        -- destruct H as (p' & Heq & _). discriminate.
        -- destruct H as (p' & q' & Heq & Hp' & _). inversion Heq; subst. congruence.
        -- destruct H as (p' & q' & Heq & Hp' & _). inversion Heq; subst. congruence.
    + destruct (p_default q) as [dq |] eqn:Hq.
      * split.
        -- destruct dq; try discriminate. intros H. inversion H; subst. simpl.
           now exists p, q.
        -- destruct m; simpl; intros H.
           ++ destruct H as (p' & Heq & _). discriminate.
           ++ destruct H as (p' & q' & Heq & _ & Hq''). inversion Heq; subst. congruence.
           ++ destruct H as (p' & q' & Heq & _ & Hq''). inversion Heq; subst.
              rewrite Hq in Hq''. now inversion Hq''.
      * split.
        -- intros H. inversion H; subst. simpl. now exists p, q.
        -- destruct m; simpl; intros H; try reflexivity.
           ++ destruct H as (p' & Heq & _). discriminate.
           ++ destruct H as (p' & q' & Heq & _ & Hq''). inversion Heq; subst. congruence.
  - split; [discriminate |].
    wrong_length m.
Qed.

(** C9, as stated, fails: the signature of [line_and_rest], with its three
    parameters, is none of the three listed shapes, yet the function is
    classified [MagicType.LINE]: its [*args] and [**kwargs] parameters are
    not looked at. *)
Lemma detect_other_shapes_fails :
  (forall m, ~ declares_shape line_and_rest m)
  /\ detect_magic_type line_and_rest = Some LINE
  /\ ~ (forall fn : function,
          (forall m, ~ declares_shape fn m) -> detect_magic_type fn = None).
Proof.
  assert (Hnone : forall m, ~ declares_shape line_and_rest m).
  { intros m. destruct m; simpl; intros H;
      [ destruct H as (? & Heq & _)
      | destruct H as (? & ? & Heq & _)
      | destruct H as (? & ? & Heq & _) ];
      discriminate Heq. }
  split; [exact Hnone | split; [reflexivity |]].
  intros claim. specialize (claim line_and_rest Hnone). discriminate claim.
Qed.

(** C9, amended. [detect_magic_type] always returns, a magic type or
    [None]; on the functions Python can define it returns [None] whenever
    the positional parameters have none of the three shapes (a [*args] or
    [**kwargs] parameter and keyword-only parameters are not counted); in
    particular it returns [None] for one declared argument that has a
    default, and for two declared arguments that both have defaults,
    whatever the second default is, be the arguments positional or not. *)
Theorem detect_other_shapes (fn : function) :
  (detect_magic_type fn = None \/ exists m, detect_magic_type fn = Some m)
  /\ (well_formed fn ->
      (forall m, ~ has_shape fn m) ->
      detect_magic_type fn = None)
  /\ (forall p, declared_args fn = [p] ->
      p_default p <> None ->
      detect_magic_type fn = None)
  /\ (forall p q, declared_args fn = [p; q] ->
      p_default p <> None ->
      p_default q <> None ->
      detect_magic_type fn = None)
  /\ (forall p, parameters fn = [p] ->
      p_default p <> None ->
      detect_magic_type fn = None)
  /\ (forall p q, parameters fn = [p; q] ->
      p_default p <> None ->
      p_default q <> None ->
      detect_magic_type fn = None).
Proof.
  split; [| split; [| split; [| split; [| split]]]].
  - destruct (detect_magic_type fn) as [m |]; [right; now exists m | now left].
  - intros Hwf Hnone.
    destruct (detect_magic_type fn) as [m |] eqn:Hm; [| reflexivity].
    exfalso. apply (Hnone m). now apply detect_magic_type_shape.
  - intros p Hargs Hp.
    rewrite detect_magic_type_declared, Hargs.
    destruct (p_default p); [reflexivity | now elim Hp].
  - intros p q Hargs Hp Hq.
    rewrite detect_magic_type_declared, Hargs.
    destruct (p_default p) as [[] |]; [.. | now elim Hp];
      (destruct (p_default q) as [[] |]; [.. | now elim Hq]); reflexivity.
  - intros p Hparams Hp.
    rewrite detect_magic_type_declared. unfold declared_args. rewrite Hparams. simpl.
    destruct (is_positional p); [| reflexivity].
    destruct (p_default p); [reflexivity | now elim Hp].
  - intros p q Hparams Hp Hq.
    rewrite detect_magic_type_declared. unfold declared_args. rewrite Hparams. simpl.
    destruct (p_default p) as [dp |] eqn:Hdp; [| now elim Hp].
    destruct (p_default q) as [dq |] eqn:Hdq; [| now elim Hq].
    destruct (is_positional p), (is_positional q); simpl;
      rewrite ?Hdp, ?Hdq; try reflexivity.
    destruct dp; reflexivity.
Qed.

Lemma detect_other_shapes_witness :
  detect_magic_type my_other_function = None
  /\ detect_magic_type one_default = None
  /\ detect_magic_type both_defaults = None
  /\ detect_magic_type one_default = None
  /\ detect_magic_type both_defaults = None.
Proof.
  split; [| split; [| split; [| split]]].
  - apply (proj1 (proj2 (detect_other_shapes my_other_function))).
    + simpl. exact I.
    + intros m. wrong_length m.
  - apply (proj1 (proj2 (proj2 (detect_other_shapes one_default)))
             (positional "line" (Some VNone))); [reflexivity | discriminate].
  - apply (proj1 (proj2 (proj2 (proj2 (detect_other_shapes both_defaults))))
             (positional "line" (Some (VInt 1))) (positional "cell" (Some VNone)));
      [reflexivity | discriminate | discriminate].
  - apply (proj1 (proj2 (proj2 (proj2 (proj2 (detect_other_shapes one_default)))))
             (positional "line" (Some VNone))); [reflexivity | discriminate].
  - apply (proj2 (proj2 (proj2 (proj2 (proj2 (detect_other_shapes both_defaults)))))
             (positional "line" (Some (VInt 1))) (positional "cell" (Some VNone)));
      [reflexivity | discriminate | discriminate].
Defined.

(** ** The interpreter of the fragment is an [Interpreter] *)

Lemma run_stmt_keys (s : MiniPython.top_stmt) (locals : dict value) :
  NoDup (dict_keys locals) -> NoDup (dict_keys (MiniPython.run_stmt locals s)).
Proof.
  destruct s; simpl; apply dict_setitem_NoDup.
Qed.

Lemma exec_source_keys (source : string) (locals locals' : dict value) :
  NoDup (dict_keys locals) ->
  MiniPython.exec_source source locals = OK locals' ->
  NoDup (dict_keys locals').
Proof.
  unfold MiniPython.exec_source.
  destruct (MiniPython.compile source) as [stmts |]; [| discriminate].
  intros Hnd Heq. inversion Heq; subst; clear Heq.
  revert locals Hnd.
  induction stmts as [| s stmts IH]; simpl; intros locals Hnd; [assumption |].
  apply IH. now apply run_stmt_keys.
Qed.

Definition mini_python : Interpreter :=
  {| exec := MiniPython.exec_source; exec_keys := exec_source_keys |}.

(** ** Functions defined by the fragment are well formed *)

Module MiniPythonFacts.
Import MiniPython.

Ltac break_match H :=
  repeat match type of H with
         | context [match ?x with _ => _ end] => destruct x eqn:?; try discriminate H
         end.

Lemma parse_header_defaults ts f ps :
  parse_header ts = Some (f, ps) -> defaults_last ps = true.
Proof.
  unfold parse_header. intros H.
  break_match H; inversion H; subst; try reflexivity;
    match goal with
    | E : (_ && _)%bool = true |- _ => apply andb_true_iff in E; apply E
    end.
Qed.

Lemma close_ok b out out' :
  block_ok b -> Forall stmt_ok out -> close b out = Some out' -> Forall stmt_ok out'.
Proof.
  intros Hb Hout H. destruct b as [| f ps [k |] body]; simpl in H; inversion H; subst.
  - assumption.
  - constructor; assumption.
Qed.

Lemma parse_top_ok ts o :
  parse_top ts = Some o ->
  match o with
  | Simple s => stmt_ok s
  | Header _ ps => defaults_last ps = true
  end.
Proof.
  unfold parse_top, option_map. intros H.
  break_match H; inversion H; subst; try exact I;
    match goal with
    | E : parse_header _ = Some ?p |- _ =>
        destruct p; simpl; now apply parse_header_defaults in E
    end.
Qed.

Lemma open_top_ok ts out b' out' :
  Forall stmt_ok out -> open_top ts out = Some (b', out') ->
  block_ok b' /\ Forall stmt_ok out'.
Proof.
  intros Hout H. unfold open_top in H.
  destruct (parse_top ts) as [[s | f ps] |] eqn:Htop; inversion H; subst;
    apply parse_top_ok in Htop.
  - split; [exact I | now constructor].
  - now split.
Qed.

Lemma parse_line_ok n ts b out b' out' :
  block_ok b -> Forall stmt_ok out ->
  parse_line n ts b out = Some (b', out') ->
  block_ok b' /\ Forall stmt_ok out'.
Proof.
  intros Hb Hout H. unfold parse_line in H. destruct n as [| n].
  - destruct (close b out) as [out1 |] eqn:Hc; [| discriminate].
    apply open_top_ok with ts out1; [| assumption].
    now apply close_ok with b out.
  - destruct b as [| f ps [k |] body]; [discriminate | |].
    + destruct (Nat.eqb (S n) k); [| discriminate].
      destruct (parse_body_stmt ts); inversion H; subst. now split.
    + destruct (parse_body_stmt ts); inversion H; subst. now split.
Qed.

Lemma parse_lines_ok lines b out stmts :
  block_ok b -> Forall stmt_ok out ->
  parse_lines lines b out = Some stmts ->
  Forall stmt_ok stmts.
Proof.
  revert b out.
  induction lines as [| l lines IH]; simpl; intros b out Hb Hout H.
  - destruct (close b out) as [out' |] eqn:Hc; inversion H; subst.
    apply Forall_rev. now apply close_ok with b out.
  - destruct (indentation l) as [n text].
    destruct (lex text Idle []) as [[| t ts] |]; [| | discriminate].
    + now apply IH with b out.
    + destruct (parse_line n (t :: ts) b out) as [[b' out'] |] eqn:Hl; [| discriminate].
      destruct (parse_line_ok _ _ _ _ _ _ Hb Hout Hl) as [Hb' Hout'].
      now apply IH with b' out'.
Qed.

Lemma all_defaults_last (ps : list (string * option literal)) :
  forallb (fun p => match snd p with Some _ => true | None => false end) ps = true ->
  defaults_last ps = true.
Proof.
  destruct ps as [| [y [d |]] ps]; simpl; intros H.
  - reflexivity.
  - exact H.
  - discriminate H.
Qed.

Lemma declared_defaults_trail (ps : list (string * option literal)) :
  defaults_last ps = true -> defaults_trail (map declare ps).
Proof.
  induction ps as [| [x [l |]] ps IH]; simpl; intros H.
  - exact I.
  - split.
    + intros _. apply Forall_forall. intros q Hq.
      apply in_map_iff in Hq. destruct Hq as ([y d] & <- & Hin).
      rewrite forallb_forall in H. specialize (H _ Hin). simpl in *.
      destruct d; [discriminate | discriminate H].
    + apply IH. now apply all_defaults_last.
  - split; [intros Hd; now elim Hd | now apply IH].
Qed.

Lemma declared_all_positional (ps : list (string * option literal)) :
  filter is_positional (map declare ps) = map declare ps.
Proof.
  induction ps as [| p ps IH]; simpl; [reflexivity | now rewrite IH].
Qed.

Lemma run_stmt_ok s locals :
  stmt_ok s -> functions_well_formed locals -> functions_well_formed (run_stmt locals s).
Proof.
  intros Hs Hl name fn Hin. destruct s as [x e | f ps body]; simpl in Hin;
    apply dict_setitem_In in Hin; destruct Hin as [[_ Hv] | Hin]; try now apply Hl with name.
  - destruct e; discriminate Hv.
  - inversion Hv; subst. unfold well_formed, declared_args. simpl.
    rewrite declared_all_positional. now apply declared_defaults_trail.
Qed.

Lemma exec_source_well_formed source locals :
  exec_source source [] = OK locals -> functions_well_formed locals.
Proof.
  unfold exec_source, compile.
  destruct (parse_lines _ Outside []) as [stmts |] eqn:Hp; [| discriminate].
  intros H. inversion H; subst; clear H.
  apply parse_lines_ok in Hp; [| exact I | constructor].
  assert (Hstart : functions_well_formed []) by (intros ? ? []).
  revert Hstart. generalize (@nil (string * value)).
  induction Hp as [| s stmts Hs Hrest IH]; simpl; intros locals Hl; [assumption |].
  apply IH. now apply run_stmt_ok.
Qed.

End MiniPythonFacts.

(** ** The cells of the notebook, executed *)

Example exec_cell_foo_bar :
  @exec mini_python cell_foo_bar [] = OK [("foo", VNone); ("bar", VFunction bar)].
Proof. vm_compute. reflexivity. Qed.

Example exec_cell_malformed :
  @exec mini_python cell_malformed [] = Raise (SyntaxError "invalid syntax").
Proof. vm_compute. reflexivity. Qed.

Example exec_cell_four_functions :
  @exec mini_python cell_four_functions [] =
  OK [ ("my_line_magic", VFunction my_line_magic);
       ("my_cell_magic", VFunction my_cell_magic);
       ("my_line_cell_magic", VFunction my_line_cell_magic);
       ("my_other_function", VFunction my_other_function) ].
Proof. vm_compute. reflexivity. Qed.

(** ** Claims on [get_public_functions] *)

Lemma keys_functional {V} (d : dict V) (k : string) (v w : V) :
  NoDup (dict_keys d) -> In (k, v) d -> In (k, w) d -> v = w.
Proof.
  induction d as [| [k' v'] d IH]; simpl; intros Hnd Hv Hw; [easy |].
  inversion Hnd as [| ? ? Hnotin Hrest]; subst.
  destruct Hv as [Hv | Hv], Hw as [Hw | Hw].
  - congruence.
  - inversion Hv; subst. exfalso. apply Hnotin.
    change (In (fst (k, w)) (map fst d)). now apply in_map.
  - inversion Hw; subst. exfalso. apply Hnotin.
    change (In (fst (k, v)) (map fst d)). now apply in_map.
  - now apply IH.
Qed.

Section ExtractFacts.
Context {python : Interpreter}.

Lemma exec_fresh_keys (cell : string) (content : dict value) :
  exec cell [] = OK content -> NoDup (dict_keys content).
Proof.
  apply exec_keys. constructor.
Qed.

Lemma get_public_functions_OK (cell : string) (content : dict value) :
  exec cell [] = OK content ->
  get_public_functions cell = OK (function_bindings content).
Proof.
  intros Hexec. unfold get_public_functions. rewrite Hexec. simpl.
  now rewrite function_comprehension_bindings by now apply exec_fresh_keys with cell.
Qed.

Lemma get_public_functions_Raise (cell : string) (e : exception) :
  exec cell [] = Raise e ->
  get_public_functions cell = Raise e.
Proof.
  intros Hexec. unfold get_public_functions. now rewrite Hexec.
Qed.

(** C3, amended. [get_public_functions] ignores non-function bindings by
    filtering: when the execution of the cell completes it returns, without
    error, the mapping of exactly the function-typed bindings, in which no
    non-function binding appears.  It handles no error: when the execution
    of the cell raises (as it does on malformed code) the exception is
    passed on. *)
Theorem get_public_functions_filters (cell : string) :
  (forall content, exec cell [] = OK content ->
     get_public_functions cell = OK (function_bindings content)
     /\ (forall name fn,
           In (name, fn) (function_bindings content) <-> In (name, VFunction fn) content)
     /\ (forall name v,
           In (name, v) content -> isfunction v = false ->
           ~ In name (dict_keys (function_bindings content))))
  /\ (forall e, exec cell [] = Raise e -> get_public_functions cell = Raise e).
Proof.
  split.
  - intros content Hexec. split; [| split].
    + now apply get_public_functions_OK.
    + intros name fn. apply function_bindings_In.
    + intros name v Hin Hv Hkey.
      unfold dict_keys in Hkey. apply in_map_iff in Hkey.
      destruct Hkey as ([name' fn] & Hname & Hfn). simpl in Hname. subst name'.
      apply function_bindings_In in Hfn.
      assert (Heq : v = VFunction fn).
      { apply (keys_functional content name); auto.
        now apply exec_fresh_keys with cell. }
      subst v. discriminate Hv.
  - apply get_public_functions_Raise.
Qed.

(** C5. When a cell binds one non-callable value and defines one function,
    [get_public_functions] returns the mapping that holds exactly the
    function under its name; the name of the other binding is not in it. *)
Theorem get_public_functions_one_function
    (cell x f : string) (v : value) (fn : function) :
  callable v = false ->
  exec cell [] = OK [(x, v); (f, VFunction fn)]
  \/ exec cell [] = OK [(f, VFunction fn); (x, v)] ->
  get_public_functions cell = OK [(f, fn)]
  /\ dict_contains [(f, fn)] f = true
  /\ dict_contains [(f, fn)] x = false.
Proof.
  intros Hv Hexec.
  assert (Hxf : x <> f).
  { destruct Hexec as [Hexec | Hexec]; apply exec_fresh_keys in Hexec;
      simpl in Hexec; inversion Hexec as [| ? ? Hnotin _]; subst;
      intros ->; apply Hnotin; now left. }
  split; [| split].
  - destruct Hexec as [Hexec | Hexec];
      rewrite (get_public_functions_OK _ _ Hexec); destruct v; try discriminate Hv; reflexivity.
  - unfold dict_contains. simpl. now rewrite String.eqb_refl.
  - unfold dict_contains. simpl.
    destruct (String.eqb_spec f x) as [-> | _]; [now elim Hxf | reflexivity].
Qed.

End ExtractFacts.

(** C3, as stated, fails: on the malformed cell [def bar(:] the execution
    raises [SyntaxError], and so does [get_public_functions]; no mapping is
    returned. *)
Lemma get_public_functions_malformed_raises :
  @get_public_functions mini_python cell_malformed = Raise (SyntaxError "invalid syntax")
  /\ ~ (forall cell : string, exists fns, @get_public_functions mini_python cell = OK fns).
Proof.
  split; [vm_compute; reflexivity |].
  intros claim. destruct (claim cell_malformed) as [fns Hfns].
  vm_compute in Hfns. discriminate Hfns.
Qed.

Lemma get_public_functions_filters_witness :
  @get_public_functions mini_python cell_foo_bar = OK [("bar", bar)]
  /\ ~ In "foo" (dict_keys (function_bindings [("foo", VNone); ("bar", VFunction bar)]))
  /\ @get_public_functions mini_python cell_malformed = Raise (SyntaxError "invalid syntax").
Proof.
  split; [| split].
  - apply (proj1 (proj1 (@get_public_functions_filters mini_python cell_foo_bar)
                    [("foo", VNone); ("bar", VFunction bar)] exec_cell_foo_bar)).
  - apply (proj2 (proj2 (proj1 (@get_public_functions_filters mini_python cell_foo_bar)
                    [("foo", VNone); ("bar", VFunction bar)] exec_cell_foo_bar))
             "foo" VNone); [now left | reflexivity].
  - apply (proj2 (@get_public_functions_filters mini_python cell_malformed)
             (SyntaxError "invalid syntax") exec_cell_malformed).
Defined.

Lemma get_public_functions_one_function_witness :
  @get_public_functions mini_python cell_foo_bar = OK [("bar", bar)]
  /\ dict_contains [("bar", bar)] "bar" = true
  /\ dict_contains [("bar", bar)] "foo" = false.
Proof.
  apply (@get_public_functions_one_function mini_python cell_foo_bar "foo" "bar" VNone bar).
  - reflexivity.
  - left. vm_compute. reflexivity.
Defined.

(** ** Claims on [register_magic] *)

Lemma registrar_key_members (tag : value) :
  registrar_key tag <-> exists m, tag = VEnum m.
Proof.
  unfold registrar_key. split.
  - intros (m & Htag & _). now exists m.
  - intros (m & Htag). exists m. split; [assumption |].
    destruct m; simpl; auto.
Qed.

Lemma getitem_registrars_member (m : MagicType) :
  getitem registrars (VEnum m) = OK (registrar_for m).
Proof.
  destruct m; reflexivity.
Qed.

Lemma getitem_registrars_other (tag : value) :
  hashable tag = true ->
  ~ registrar_key tag ->
  getitem registrars tag = Raise (KeyError tag).
Proof.
  intros Hhash Hkey. destruct tag; try reflexivity; try discriminate Hhash.
  exfalso. apply Hkey. apply registrar_key_members. now exists m.
Qed.

Lemma getitem_registrars_unhashable (tag : value) :
  hashable tag = false ->
  getitem registrars tag = Raise (TypeError "unhashable type: 'list'").
Proof.
  intros Hhash. unfold getitem. now rewrite Hhash.
Qed.

(** Called with a member of [MagicType], [register_magic] hands the function
    to the registrar of that member and returns. *)
Lemma register_magic_member (fn : function) (m : MagicType) (ip : shell) :
  register_magic fn (VEnum m) ip = (OK tt, snd (registrar_for m fn ip)).
Proof.
  destruct m; reflexivity.
Qed.

Lemma register_magic_other (fn : function) (tag : value) (ip : shell) :
  hashable tag = true ->
  ~ registrar_key tag ->
  register_magic fn tag ip = (Raise (unknown_magic_type tag), ip).
Proof.
  intros Hhash Hkey.
  unfold register_magic, try_except_KeyError, bind, lift.
  now rewrite (getitem_registrars_other tag Hhash Hkey).
Qed.

Lemma register_magic_unhashable (fn : function) (tag : value) (ip : shell) :
  hashable tag = false ->
  register_magic fn tag ip = (Raise (TypeError "unhashable type: 'list'"), ip).
Proof.
  intros Hhash.
  unfold register_magic, try_except_KeyError, bind, lift.
  now rewrite (getitem_registrars_unhashable tag Hhash).
Qed.

(** On a tag that is no key, [register_magic] raises and leaves the shell
    as it was. *)
Lemma register_magic_not_key (fn : function) (tag : value) (ip : shell) :
  ~ registrar_key tag ->
  register_magic fn tag ip = (Raise (not_a_key tag), ip).
Proof.
  intros Hkey. unfold not_a_key.
  destruct (hashable tag) eqn:Hhash.
  - now apply register_magic_other.
  - now apply register_magic_unhashable.
Qed.

Lemma unhashable_not_key (tag : value) :
  hashable tag = false -> ~ registrar_key tag.
Proof.
  intros Hhash (m & -> & _). discriminate Hhash.
Qed.

(** C4, as stated, fails: the list [[]] is no key of [registrars], yet
    [register_magic] called with it raises the [TypeError] of the lookup
    (a list cannot be hashed), which the [except KeyError] does not catch,
    and no [RuntimeError]. *)
Lemma register_magic_unhashable_tag :
  ~ registrar_key (VList [])
  /\ register_magic my_line_magic (VList []) no_magics
     = (Raise (TypeError "unhashable type: 'list'"), no_magics)
  /\ ~ (forall (fn : function) (tag : value) (ip : shell),
          (exists message key ip',
             register_magic fn tag ip
             = (Raise (RuntimeError message (Some (KeyError key))), ip'))
          <-> ~ registrar_key tag).
Proof.
  assert (Hkey : ~ registrar_key (VList [])) by now apply unhashable_not_key.
  split; [exact Hkey | split; [reflexivity |]].
  intros claim.
  destruct (proj2 (claim my_line_magic (VList []) no_magics) Hkey)
    as (message & key & ip' & Hraise).
  discriminate Hraise.
Qed.

(** C4, amended. [register_magic] raises [RuntimeError], with the
    [KeyError] of the failed lookup as its cause, if and only if the tag can
    be hashed and is not a key of [registrars]; on a tag that cannot be
    hashed the [TypeError] of the lookup is raised instead, uncaught; for
    each of the three keys it calls the registrar stored under that key and
    raises nothing.  When it raises, the shell is left as it was. *)
Theorem register_magic_tags (fn : function) (tag : value) (ip : shell) :
  ((exists message key ip',
      register_magic fn tag ip = (Raise (RuntimeError message (Some (KeyError key))), ip'))
   <-> hashable tag = true /\ ~ registrar_key tag)
  /\ (register_magic fn tag ip = (Raise (unknown_magic_type tag), ip)
      <-> hashable tag = true /\ ~ registrar_key tag)
  /\ (hashable tag = false ->
      register_magic fn tag ip = (Raise (TypeError "unhashable type: 'list'"), ip))
  /\ register_magic fn (VEnum LINE) ip = (OK tt, snd (register_line_magic fn ip))
  /\ register_magic fn (VEnum CELL) ip = (OK tt, snd (register_cell_magic fn ip))
  /\ register_magic fn (VEnum LINE_CELL) ip = (OK tt, snd (register_line_cell_magic fn ip)).
Proof.
  assert (Hknown : registrar_key tag ->
            exists ip', register_magic fn tag ip = (OK tt, ip')).
  { intros Hkey. apply registrar_key_members in Hkey.
    destruct Hkey as [m ->]. rewrite register_magic_member. eauto. }
  assert (Hruntime : forall message cause ip',
            register_magic fn tag ip = (Raise (RuntimeError message cause), ip') ->
            hashable tag = true /\ ~ registrar_key tag).
  { intros message cause ip' Hraise. split.
    - destruct (hashable tag) eqn:Hhash; [reflexivity |].
      rewrite (register_magic_unhashable fn tag ip Hhash) in Hraise.
      discriminate Hraise.
    - intros Hkey. destruct (Hknown Hkey) as [ip'' Hok]. congruence. }
  split; [| split; [| split; [| repeat split]]].
  - split.
    + intros (message & key & ip' & Hraise). now apply Hruntime in Hraise.
    + intros [Hhash Hkey]. exists [FLit "Unknown magic type "; FValue tag], tag, ip.
      now apply register_magic_other.
  - split.
    + intros Hraise. now apply Hruntime in Hraise.
    + intros [Hhash Hkey]. now apply register_magic_other.
  - apply register_magic_unhashable.
Qed.

(** ** Claims on the cell magic [auto_register_magics] *)

(** The loop of [auto_register_magics] registers the functions that have a
    magic type, each with the registrar of its type, and raises nothing. *)
Lemma for_each_auto_register (fns : list (string * function)) (ip : shell) :
  for_each fns auto_register_item ip
  = (OK tt, register_each (magics_among (classified fns)) ip).
Proof.
  revert ip.
  induction fns as [| [name fn] fns IH]; intros ip; simpl; [reflexivity |].
  unfold bind at 1. unfold auto_register_item. simpl.
  destruct (detect_magic_type fn) as [m |]; simpl.
  - rewrite register_magic_member. rewrite IH. reflexivity.
  - unfold ret. rewrite IH. reflexivity.
Qed.

Section CellMagicFacts.
Context {python : Interpreter}.

Lemma auto_register_magics_OK (line cell : string) (content : dict value) (ip : shell) :
  exec cell [] = OK content ->
  auto_register_magics line cell ip = (OK tt, pipeline content ip).
Proof.
  intros Hexec. unfold auto_register_magics, bind, lift.
  rewrite (get_public_functions_OK cell content Hexec).
  apply for_each_auto_register.
Qed.

Lemma auto_register_magics_Raise (line cell : string) (e : exception) (ip : shell) :
  exec cell [] = Raise e ->
  auto_register_magics line cell ip = (Raise e, ip).
Proof.
  intros Hexec. unfold auto_register_magics, bind, lift.
  now rewrite (get_public_functions_Raise cell e Hexec).
Qed.

(** C1. On every cell the cell magic runs the three steps in order: the
    function-typed bindings that executing the cell leaves are extracted,
    each is classified, and exactly those with a magic type are registered,
    each with the registrar of its type (when executing the cell raises,
    the exception is passed on and nothing is registered).  Nothing is
    carried over: after an invocation on one cell, an invocation on a second
    cell registers what the second cell alone yields. *)
Theorem auto_register_magics_pipeline (line cell : string) (ip : shell) :
  auto_register_magics line cell ip =
  match exec cell [] with
  | OK content =>
      (OK tt, register_each (magics_among (classified (function_bindings content))) ip)
  | Raise e => (Raise e, ip)
  end
  /\ (forall line' cell' content content',
        exec cell [] = OK content ->
        exec cell' [] = OK content' ->
        bind (auto_register_magics line cell)
             (fun _ => auto_register_magics line' cell') ip
        = (OK tt, pipeline content' (pipeline content ip))).
Proof.
  split.
  - destruct (exec cell []) as [content | e] eqn:Hexec.
    + now apply auto_register_magics_OK.
    + now apply auto_register_magics_Raise.
  - intros line' cell' content content' Hexec Hexec'.
    unfold bind at 1.
    rewrite (auto_register_magics_OK line cell content ip Hexec).
    now apply auto_register_magics_OK.
Qed.

(** C10. In an invocation of the cell magic the [RuntimeError] of
    [register_magic] cannot occur: a classification that passes the test of
    the loop is a key of [registrars], [register_magic] called on it
    returns, and an exception of the cell magic can only be the one that
    executing the cell raised, before anything was registered. *)
Theorem auto_register_magics_no_unknown_type (line cell : string) (ip : shell) :
  (forall fn, truth (to_value (detect_magic_type fn)) = true ->
     registrar_key (to_value (detect_magic_type fn))
     /\ exists ip', register_magic fn (to_value (detect_magic_type fn)) ip = (OK tt, ip'))
  /\ (forall e ip', auto_register_magics line cell ip = (Raise e, ip') ->
        exec cell [] = Raise e /\ ip' = ip)
  /\ (forall content, exec cell [] = OK content ->
        exists ip', auto_register_magics line cell ip = (OK tt, ip')).
Proof.
  split; [| split].
  - intros fn Htruth.
    destruct (detect_magic_type fn) as [m |]; simpl in *; [| discriminate Htruth].
    split.
    + apply registrar_key_members. now exists m.
    + rewrite register_magic_member. eauto.
  - intros e ip' Hraise.
    destruct (exec cell []) as [content | e0] eqn:Hexec.
    + rewrite (auto_register_magics_OK line cell content ip Hexec) in Hraise.
      discriminate Hraise.
    + rewrite (auto_register_magics_Raise line cell e0 ip Hexec) in Hraise.
      inversion Hraise; subst. now split.
  - intros content Hexec.
    rewrite (auto_register_magics_OK line cell content ip Hexec). eauto.
Qed.

End CellMagicFacts.

(** ** The notebook's runs of the registration *)

(** [register_magic(my_line_magic, MagicType.LINE)] makes [%my_line_magic]
    available. *)
Example notebook_register_magic :
  register_magic my_line_magic (VEnum LINE) no_magics
  = (OK tt, mk_shell [("my_line_magic", my_line_magic)] []).
Proof. reflexivity. Qed.

Lemma register_magic_tags_witness :
  register_magic my_line_magic VNone no_magics
  = (Raise (unknown_magic_type VNone), no_magics)
  /\ register_magic my_line_magic (VStr "LINE") no_magics
     = (Raise (unknown_magic_type (VStr "LINE")), no_magics)
  /\ register_magic my_line_magic (VList [VEnum LINE]) no_magics
     = (Raise (TypeError "unhashable type: 'list'"), no_magics)
  /\ register_magic my_line_magic (VEnum LINE) no_magics
     = (OK tt, snd (register_line_magic my_line_magic no_magics)).
Proof.
  split; [| split; [| split]].
  - apply (proj2 (proj1 (proj2 (register_magic_tags my_line_magic VNone no_magics)))).
    split; [reflexivity | intros (m & Htag & _); discriminate Htag].
  - apply (proj2 (proj1 (proj2 (register_magic_tags my_line_magic (VStr "LINE") no_magics)))).
    split; [reflexivity | intros (m & Htag & _); discriminate Htag].
  - apply (proj1 (proj2 (proj2 (register_magic_tags my_line_magic (VList [VEnum LINE])
                                  no_magics)))).
    reflexivity.
  - apply (proj1 (proj2 (proj2 (proj2 (register_magic_tags my_line_magic VNone no_magics))))).
Defined.

Lemma auto_register_magics_pipeline_witness :
  @auto_register_magics mini_python "" cell_four_functions no_magics = (OK tt, three_magics)
  /\ @auto_register_magics mini_python "" cell_malformed no_magics
     = (Raise (SyntaxError "invalid syntax"), no_magics)
  /\ bind (@auto_register_magics mini_python "" cell_foo_bar)
          (fun _ => @auto_register_magics mini_python "" cell_four_functions) no_magics
     = (OK tt, three_magics).
Proof.
  split; [| split].
  - exact (proj1 (@auto_register_magics_pipeline mini_python "" cell_four_functions no_magics)).
  - exact (proj1 (@auto_register_magics_pipeline mini_python "" cell_malformed no_magics)).
  - apply (proj2 (@auto_register_magics_pipeline mini_python "" cell_foo_bar no_magics)
             "" cell_four_functions
             [("foo", VNone); ("bar", VFunction bar)]
             [ ("my_line_magic", VFunction my_line_magic);
               ("my_cell_magic", VFunction my_cell_magic);
               ("my_line_cell_magic", VFunction my_line_cell_magic);
               ("my_other_function", VFunction my_other_function) ]);
      vm_compute; reflexivity.
Defined.

Lemma auto_register_magics_no_unknown_type_witness :
  (registrar_key (to_value (detect_magic_type my_line_magic))
   /\ exists ip', register_magic my_line_magic (to_value (detect_magic_type my_line_magic))
                    no_magics = (OK tt, ip'))
  /\ (@exec mini_python cell_malformed [] = Raise (SyntaxError "invalid syntax")
      /\ no_magics = no_magics)
  /\ (exists ip', @auto_register_magics mini_python "" cell_four_functions no_magics
                  = (OK tt, ip')).
Proof.
  split; [| split].
  - apply (proj1 (@auto_register_magics_no_unknown_type mini_python "" cell_malformed no_magics)
             my_line_magic).
    reflexivity.
  - apply (proj1 (proj2 (@auto_register_magics_no_unknown_type
                           mini_python "" cell_malformed no_magics))
             (SyntaxError "invalid syntax") no_magics).
    vm_compute. reflexivity.
  - apply (proj2 (proj2 (@auto_register_magics_no_unknown_type
                           mini_python "" cell_four_functions no_magics))
             [ ("my_line_magic", VFunction my_line_magic);
               ("my_cell_magic", VFunction my_cell_magic);
               ("my_line_cell_magic", VFunction my_line_cell_magic);
               ("my_other_function", VFunction my_other_function) ]).
    vm_compute. reflexivity.
Defined.

(** ** Further properties *)

(** The classification depends on the declared (positional) arguments
    alone: a [*args] or [**kwargs] parameter and keyword-only parameters
    play no part in it. *)
Theorem detect_magic_type_positional (fn fn' : function) :
  declared_args fn = declared_args fn' ->
  detect_magic_type fn = detect_magic_type fn'.
Proof.
  intros Hargs.
  now rewrite !detect_magic_type_declared, Hargs.
Qed.

Lemma detect_magic_type_positional_witness :
  detect_magic_type line_and_rest = detect_magic_type my_line_magic
  /\ detect_magic_type keyword_only = detect_magic_type my_other_function.
Proof.
  split.
  - apply (detect_magic_type_positional line_and_rest my_line_magic). reflexivity.
  - apply (detect_magic_type_positional keyword_only my_other_function). reflexivity.
Defined.

Example detect_line_and_rest : detect_magic_type line_and_rest = Some LINE.
Proof. reflexivity. Qed.

Example detect_keyword_only : detect_magic_type keyword_only = None.
Proof. reflexivity. Qed.

(** The mapping [get_public_functions] returns is the namespace left by the
    cell, filtered by [inspect.isfunction], in the order of the namespace. *)
Theorem get_public_functions_isfunction {python : Interpreter}
    (cell : string) (content : dict value) :
  exec cell [] = OK content ->
  exists fns,
    get_public_functions cell = OK fns
    /\ map (fun item => (fst item, VFunction (snd item))) fns
       = filter (fun item => isfunction (snd item)) content.
Proof.
  intros Hexec. exists (function_bindings content). split.
  - now apply get_public_functions_OK.
  - apply function_bindings_isfunction.
Qed.

Lemma get_public_functions_isfunction_witness :
  exists fns,
    @get_public_functions mini_python cell_foo_bar = OK fns
    /\ map (fun item => (fst item, VFunction (snd item))) fns
       = filter (fun item => isfunction (snd item)) [("foo", VNone); ("bar", VFunction bar)].
Proof.
  apply (@get_public_functions_isfunction mini_python cell_foo_bar).
  vm_compute. reflexivity.
Defined.

(** After [register_magic] with a member of [MagicType], the function is
    found under its [__name__] in the table of line magics, of cell magics,
    or in both, as the member says. *)
Theorem register_magic_available (fn : function) (ip : shell) :
  dict_get (magics_line (snd (register_magic fn (VEnum LINE) ip))) (__name__ fn) = Some fn
  /\ dict_get (magics_cell (snd (register_magic fn (VEnum CELL) ip))) (__name__ fn) = Some fn
  /\ dict_get (magics_line (snd (register_magic fn (VEnum LINE_CELL) ip))) (__name__ fn)
     = Some fn
  /\ dict_get (magics_cell (snd (register_magic fn (VEnum LINE_CELL) ip))) (__name__ fn)
     = Some fn
  /\ magics_cell (snd (register_magic fn (VEnum LINE) ip)) = magics_cell ip
  /\ magics_line (snd (register_magic fn (VEnum CELL) ip)) = magics_line ip.
Proof.
  rewrite !register_magic_member. simpl.
  repeat split; apply dict_get_setitem.
Qed.

(** ** Dictionaries under a sequence of stores *)

Section DictUpdateFacts.
Context {V : Type}.

Lemma dict_get_setitem_other (d : dict V) (k k' : string) (v : V) :
  k <> k' -> dict_get (dict_setitem d k v) k' = dict_get d k'.
Proof.
  intros Hne.
  induction d as [| [a x] d IH]; simpl.
  - destruct (String.eqb_spec k k'); [contradiction | reflexivity].
  - destruct (String.eqb_spec a k) as [-> | Hak]; simpl.
    + destruct (String.eqb_spec k k'); [contradiction | reflexivity].
    + destruct (String.eqb_spec a k'); [reflexivity | exact IH].
Qed.

Lemma dict_get_absent (d : dict V) (k : string) :
  ~ In k (dict_keys d) -> dict_get d k = None.
Proof.
  induction d as [| [a x] d IH]; simpl; intros Hk; [reflexivity |].
  destruct (String.eqb_spec a k) as [-> | _].
  - exfalso. apply Hk. now left.
  - apply IH. intros Hin. apply Hk. now right.
Qed.

Lemma dict_get_In (d : dict V) (k : string) (v : V) :
  dict_get d k = Some v -> In (k, v) d.
Proof.
  induction d as [| [a x] d IH]; simpl; [discriminate |].
  destruct (String.eqb_spec a k) as [-> | _]; intros H.
  - inversion H. now left.
  - right. now apply IH.
Qed.

Lemma dict_get_only (d : dict V) (k : string) (v : V) :
  In (k, v) d -> (forall w, In (k, w) d -> w = v) -> dict_get d k = Some v.
Proof.
  intros Hin Honly.
  destruct (dict_get d k) as [w |] eqn:Hget.
  - f_equal. apply Honly. now apply dict_get_In.
  - exfalso. induction d as [| [a x] d IH]; simpl in *; [easy |].
    destruct (String.eqb_spec a k) as [-> | Hne]; [discriminate |].
    destruct Hin as [Heq | Hin]; [inversion Heq; subst; now elim Hne |].
    apply IH; auto.
Qed.

Lemma dict_get_app (d d' : dict V) (k : string) :
  dict_get (d ++ d') k =
  match dict_get d k with
  | Some v => Some v
  | None => dict_get d' k
  end.
Proof.
  induction d as [| [a x] d IH]; simpl; [reflexivity |].
  now destruct (String.eqb a k).
Qed.

(** After a sequence of stores a key holds what was stored under it last,
    or what it held before when nothing was stored under it. *)
Lemma dict_update_get (d : dict V) (items : list (string * V)) (k : string) :
  dict_get (dict_update d items) k =
  match dict_get (rev items) k with
  | Some v => Some v
  | None => dict_get d k
  end.
Proof.
  unfold dict_update. revert d.
  induction items as [| [a x] items IH]; intros d; simpl; [reflexivity |].
  rewrite IH, dict_get_app. simpl.
  destruct (dict_get (rev items) k); [reflexivity |].
  destruct (String.eqb_spec a k) as [-> | Hne].
  - apply dict_get_setitem.
  - now apply dict_get_setitem_other.
Qed.

Lemma dict_update_keys (d : dict V) (items : list (string * V)) (k : string) :
  In k (dict_keys (dict_update d items)) <-> In k (dict_keys d) \/ In k (map fst items).
Proof.
  unfold dict_update. revert d.
  induction items as [| [a x] items IH]; intros d; simpl.
  - intuition.
  - rewrite IH, dict_setitem_keys_in. intuition.
Qed.

Lemma dict_setitem_twice (d : dict V) (k : string) (v w : V) :
  dict_setitem (dict_setitem d k v) k w = dict_setitem d k w.
Proof.
  induction d as [| [a x] d IH]; simpl.
  - now rewrite String.eqb_refl.
  - destruct (String.eqb a k) eqn:Hak; simpl.
    + now rewrite String.eqb_refl.
    + now rewrite Hak, IH.
Qed.

(** Two stores under different keys commute when one of the keys is
    already present (otherwise the order of the new keys differs). *)
Lemma dict_setitem_swap (d : dict V) (k k' : string) (v v' : V) :
  k <> k' -> In k (dict_keys d) ->
  dict_setitem (dict_setitem d k v) k' v' = dict_setitem (dict_setitem d k' v') k v.
Proof.
  intros Hne.
  induction d as [| [a x] d IH]; simpl; intros Hin; [easy |].
  destruct (String.eqb_spec a k) as [-> | Hak]; simpl.
  - destruct (String.eqb_spec k k') as [-> | _]; [now elim Hne |]. simpl.
    now rewrite String.eqb_refl.
  - destruct (String.eqb_spec a k') as [-> | Hak']; simpl.
    + destruct (String.eqb_spec k' k) as [<- | _]; [now elim Hne | reflexivity].
    + destruct (String.eqb_spec a k); [contradiction |].
      f_equal. apply IH. destruct Hin as [Heq | Hin]; [now elim Hak | assumption].
Qed.

Lemma dict_update_setitem_present (items : list (string * V)) (d : dict V)
    (k : string) (v0 v : V) :
  In k (dict_keys d) ->
  dict_setitem (dict_update (dict_setitem d k v0) items) k v
  = dict_setitem (dict_update d items) k v.
Proof.
  unfold dict_update. revert d v0.
  induction items as [| [a x] items IH]; intros d v0 Hin; simpl.
  - apply dict_setitem_twice.
  - destruct (String.eqb_spec a k) as [-> | Hne].
    + now rewrite dict_setitem_twice.
    + rewrite dict_setitem_swap by (auto; congruence).
      apply IH. apply dict_setitem_keys_in. now right.
Qed.

Lemma dict_update_setitem_apart (items : list (string * V)) (d : dict V)
    (k : string) (v : V) :
  (forall a, In a (map fst items) -> In a (dict_keys d)) ->
  ~ In k (map fst items) ->
  dict_update (dict_setitem d k v) items = dict_setitem (dict_update d items) k v.
Proof.
  unfold dict_update. revert d.
  induction items as [| [a x] items IH]; intros d Hkeys Hk; simpl; [reflexivity |].
  assert (Hak : a <> k) by (intros ->; apply Hk; now left).
  rewrite <- dict_setitem_swap.
  - apply IH.
    + intros b Hb. apply dict_setitem_keys_in. right. apply Hkeys. now right.
    + intros Hin. apply Hk. now right.
  - exact Hak.
  - apply Hkeys. now left.
Qed.

Lemma dict_update_last (d : dict V) (items : list (string * V)) (k : string) (v : V) :
  dict_update d (items ++ [(k, v)]) = dict_setitem (dict_update d items) k v.
Proof.
  unfold dict_update. now rewrite fold_left_app.
Qed.

(** Storing the same sequence a second time changes nothing. *)
Lemma dict_update_twice (items : list (string * V)) (d : dict V) :
  dict_update (dict_update d items) items = dict_update d items.
Proof.
  revert d.
  induction items as [| [k v] items IH] using rev_ind; intros d; [reflexivity |].
  rewrite !dict_update_last.
  assert (Hkeys : forall a, In a (map fst items) -> In a (dict_keys (dict_update d items))).
  { intros a Ha. apply dict_update_keys. now right. }
  destruct (in_dec string_dec k (dict_keys (dict_update d items))) as [Hin | Hout].
  - rewrite (dict_update_setitem_present items _ k v v Hin).
    now rewrite IH.
  - assert (Hk : ~ In k (map fst items)) by (intros Hk; now apply Hout, Hkeys).
    rewrite (dict_update_setitem_apart items _ k v Hkeys Hk).
    rewrite IH. apply dict_setitem_twice.
Qed.

End DictUpdateFacts.

(** ** Further properties of [detect_magic_type] *)

(** On the functions Python can define, [detect_magic_type] returns a magic
    type exactly when the declared arguments have the shape of that type,
    and [None] exactly when they have none of the three shapes. *)
Theorem detect_magic_type_exact (fn : function) :
  well_formed fn ->
  (forall m, detect_magic_type fn = Some m <-> has_shape fn m)
  /\ (detect_magic_type fn = None <-> forall m, ~ has_shape fn m).
Proof.
  intros Hwf. split.
  - intros m. now apply detect_magic_type_shape.
  - split.
    + intros Hnone m Hshape.
      apply (detect_magic_type_shape fn m Hwf) in Hshape. congruence.
    + intros Hnone.
      destruct (detect_magic_type fn) as [m |] eqn:Hm; [| reflexivity].
      exfalso. apply (Hnone m). now apply detect_magic_type_shape.
Qed.

Lemma detect_magic_type_exact_witness :
  (forall m, detect_magic_type my_line_cell_magic = Some m
             <-> has_shape my_line_cell_magic m)
  /\ (detect_magic_type my_line_cell_magic = None
      <-> forall m, ~ has_shape my_line_cell_magic m).
Proof.
  apply (detect_magic_type_exact my_line_cell_magic).
  unfold well_formed. simpl.
  split; [intros H; now elim H | split; [intros _; constructor | exact I]].
Defined.

(** The classification reads only which declared arguments have a default
    and what the defaults are: the names of the arguments, their
    annotations and whether they are positional-only play no part. *)
Theorem detect_magic_type_defaults (fn fn' : function) :
  map p_default (declared_args fn) = map p_default (declared_args fn') ->
  detect_magic_type fn = detect_magic_type fn'.
Proof.
  intros Hdefaults.
  rewrite !detect_magic_type_declared.
  destruct (declared_args fn) as [| p [| q [| r rest]]],
           (declared_args fn') as [| p' [| q' [| r' rest']]];
    try discriminate Hdefaults; try reflexivity;
    simpl in Hdefaults; inversion Hdefaults; congruence.
Qed.

Lemma detect_magic_type_defaults_witness :
  detect_magic_type renamed = detect_magic_type my_cell_magic.
Proof.
  apply (detect_magic_type_defaults renamed my_cell_magic). reflexivity.
Defined.

(** A function with three or more declared arguments is never classified
    as a magic, whatever their defaults. *)
Theorem detect_many_arguments (fn : function) :
  3 <= List.length (declared_args fn) ->
  detect_magic_type fn = None.
Proof.
  intros Hlen.
  rewrite detect_magic_type_declared.
  destruct (declared_args fn) as [| p [| q [| r rest]]]; simpl in Hlen; try lia.
  reflexivity.
Qed.

Lemma detect_many_arguments_witness :
  detect_magic_type three_arguments = None.
Proof.
  apply (detect_many_arguments three_arguments). simpl. lia.
Defined.

(** ** Further properties of [get_public_functions] *)

Lemma function_bindings_names (content : list (string * value)) (k : string) :
  In k (dict_keys (function_bindings content)) -> In k (dict_keys content).
Proof.
  induction content as [| [name v] rest IH]; simpl; [easy |].
  destruct v; simpl; intuition.
Qed.

Lemma function_bindings_get (content : dict value) (name : string) :
  NoDup (dict_keys content) ->
  dict_get (function_bindings content) name =
  match dict_get content name with
  | Some (VFunction fn) => Some fn
  | _ => None
  end.
Proof.
  induction content as [| [k v] rest IH]; simpl; intros Hnd; [reflexivity |].
  inversion Hnd as [| ? ? Hnotin Hrest]; subst.
  destruct (String.eqb_spec k name) as [-> | Hne].
  - destruct v; simpl; rewrite ?String.eqb_refl; try reflexivity;
      apply dict_get_absent; intros Hin; apply Hnotin;
      now apply function_bindings_names.
  - destruct v; simpl; try now apply IH.
    destruct (String.eqb_spec k name); [contradiction | now apply IH].
Qed.

(** Looking a name up in the mapping [get_public_functions] returns gives
    the function the cell bound to that name, and fails exactly when the
    cell bound no function to it. *)
Theorem get_public_functions_lookup {python : Interpreter}
    (cell : string) (content : dict value) :
  exec cell [] = OK content ->
  exists fns,
    get_public_functions cell = OK fns
    /\ NoDup (dict_keys fns)
    /\ forall name,
         dict_get fns name =
         match dict_get content name with
         | Some (VFunction fn) => Some fn
         | _ => None
         end.
Proof.
  intros Hexec. exists (function_bindings content).
  assert (Hnd : NoDup (dict_keys content)) by now apply exec_fresh_keys with cell.
  split; [now apply get_public_functions_OK |]. split.
  - clear Hexec. induction content as [| [k v] rest IH]; simpl; [constructor |].
    inversion Hnd as [| ? ? Hnotin Hrest]; subst.
    destruct v; simpl; try now apply IH.
    constructor; [| now apply IH].
    intros Hin. apply Hnotin. now apply function_bindings_names.
  - intros name. now apply function_bindings_get.
Qed.

Lemma get_public_functions_lookup_witness :
  exists fns,
    @get_public_functions mini_python cell_foo_bar = OK fns
    /\ NoDup (dict_keys fns)
    /\ forall name,
         dict_get fns name =
         match dict_get [("foo", VNone); ("bar", VFunction bar)] name with
         | Some (VFunction fn) => Some fn
         | _ => None
         end.
Proof.
  apply (@get_public_functions_lookup mini_python cell_foo_bar).
  vm_compute. reflexivity.
Defined.

(** ** Further properties of [register_magic] *)

(** The shell after [register_magic] with a member of [MagicType]. *)
Lemma register_magic_shell (fn : function) (m : MagicType) (ip : shell) :
  snd (register_magic fn (VEnum m) ip) =
  mk_shell
    (if line_kind m then dict_setitem (magics_line ip) (__name__ fn) fn else magics_line ip)
    (if cell_kind m then dict_setitem (magics_cell ip) (__name__ fn) fn else magics_cell ip).
Proof.
  rewrite register_magic_member. destruct m; reflexivity.
Qed.

Lemma register_magic_shell_other (fn : function) (tag : value) (ip : shell) :
  ~ registrar_key tag -> snd (register_magic fn tag ip) = ip.
Proof.
  intros Hkey. now rewrite register_magic_not_key.
Qed.

Lemma registrar_key_dec (tag : value) : {m | tag = VEnum m} + {~ registrar_key tag}.
Proof.
  destruct tag; try (right; intros (m' & Heq & _); discriminate Heq).
  left. now exists m.
Qed.

Lemma dict_contains_setitem {V} (d : dict V) (k k' : string) (v : V) :
  dict_contains d k' = true -> dict_contains (dict_setitem d k v) k' = true.
Proof.
  unfold dict_contains.
  destruct (string_dec k k') as [-> | Hne].
  - now rewrite dict_get_setitem.
  - now rewrite dict_get_setitem_other.
Qed.

(** [register_magic] touches one name only: whatever the tag, a magic of
    another name than [fn.__name__] is after the call what it was before,
    and no name that was registered is lost. *)
Theorem register_magic_frame (fn : function) (tag : value) (ip : shell) (k : string) :
  (k <> __name__ fn ->
   dict_get (magics_line (snd (register_magic fn tag ip))) k = dict_get (magics_line ip) k
   /\ dict_get (magics_cell (snd (register_magic fn tag ip))) k = dict_get (magics_cell ip) k)
  /\ (dict_contains (magics_line ip) k = true ->
      dict_contains (magics_line (snd (register_magic fn tag ip))) k = true)
  /\ (dict_contains (magics_cell ip) k = true ->
      dict_contains (magics_cell (snd (register_magic fn tag ip))) k = true).
Proof.
  destruct (registrar_key_dec tag) as [[m ->] | Hkey].
  - rewrite register_magic_shell. simpl.
    split; [| split].
    + intros Hne. split.
      * destruct (line_kind m); [| reflexivity].
        apply dict_get_setitem_other. congruence.
      * destruct (cell_kind m); [| reflexivity].
        apply dict_get_setitem_other. congruence.
    + destruct (line_kind m); [apply dict_contains_setitem | trivial].
    + destruct (cell_kind m); [apply dict_contains_setitem | trivial].
  - rewrite (register_magic_shell_other fn tag ip Hkey). auto.
Qed.

Lemma register_magic_frame_witness :
  dict_get (magics_line (snd (register_magic my_cell_magic (VEnum LINE) three_magics)))
           "my_line_magic"
  = dict_get (magics_line three_magics) "my_line_magic"
  /\ dict_get (magics_cell (snd (register_magic my_cell_magic (VEnum LINE) three_magics)))
              "my_line_magic"
     = dict_get (magics_cell three_magics) "my_line_magic".
Proof.
  apply (proj1 (register_magic_frame my_cell_magic (VEnum LINE) three_magics "my_line_magic")).
  discriminate.
Defined.

(** A later registration under the same name and type replaces the earlier
    one altogether: the outcome is that of the later call alone.  With the
    same function twice, [register_magic] is idempotent. *)
Theorem register_magic_override (fn fn' : function) (tag : value) (ip : shell) :
  __name__ fn = __name__ fn' ->
  bind (register_magic fn tag) (fun _ => register_magic fn' tag) ip
  = register_magic fn' tag ip.
Proof.
  intros Hname. unfold bind.
  destruct (registrar_key_dec tag) as [[m ->] | Hkey].
  - rewrite !register_magic_member.
    destruct m; simpl; unfold record_magic; simpl;
      rewrite Hname, ?dict_setitem_twice; reflexivity.
  - now rewrite !register_magic_not_key.
Qed.

Lemma register_magic_override_witness :
  bind (register_magic my_line_magic (VEnum LINE))
       (fun _ => register_magic my_line_magic_print (VEnum LINE)) no_magics
  = register_magic my_line_magic_print (VEnum LINE) no_magics.
Proof.
  apply (register_magic_override my_line_magic my_line_magic_print (VEnum LINE) no_magics).
  reflexivity.
Defined.

(** ** Further properties of the cell magic *)

(** The two tables after a list of registrations. *)
Lemma register_each_tables (l : list (function * MagicType)) (ip : shell) :
  register_each l ip =
  mk_shell (dict_update (magics_line ip) (magics_of line_kind l))
           (dict_update (magics_cell ip) (magics_of cell_kind l)).
Proof.
  revert ip.
  induction l as [| [fn m] l IH]; intros ip.
  - now destruct ip.
  - unfold register_each in *. simpl. rewrite IH.
    destruct m; reflexivity.
Qed.

Lemma registrations_In (content : dict value) (fn : function) (m : MagicType) :
  In (fn, m) (registrations content) <->
  (exists name, In (name, VFunction fn) content) /\ detect_magic_type fn = Some m.
Proof.
  unfold registrations, classified.
  assert (H : forall fns : list (string * function),
             In (fn, m) (magics_among
                           (map (fun item => (snd item, detect_magic_type (snd item))) fns))
             <-> (exists name, In (name, fn) fns) /\ detect_magic_type fn = Some m).
  { induction fns as [| [name f] fns IH]; simpl.
    - split; [easy | intros [[? []] _]].
    - destruct (detect_magic_type f) as [m' |] eqn:Hf; simpl; rewrite IH; split.
      + intros [Heq | [[n Hn] Hm]].
        * inversion Heq; subst. split; [exists name; now left | assumption].
        * split; [exists n; now right | assumption].
      + intros [[n [Heq | Hn]] Hm].
        * inversion Heq; subst. left. congruence.
        * right. split; [now exists n | assumption].
      + intros [[n Hn] Hm]. split; [exists n; now right | assumption].
      + intros [[n [Heq | Hn]] Hm].
        * inversion Heq; subst. congruence.
        * split; [now exists n | assumption]. }
  rewrite H. split; intros [[name Hin] Hm]; (split; [exists name | assumption]).
  - now apply function_bindings_In.
  - now apply function_bindings_In.
Qed.

Lemma magics_of_In (table : MagicType -> bool) (content : dict value)
    (k : string) (fn : function) :
  In (k, fn) (magics_of table (registrations content)) <->
  exists m, (exists name, In (name, VFunction fn) content)
            /\ detect_magic_type fn = Some m /\ table m = true /\ k = __name__ fn.
Proof.
  unfold magics_of. rewrite in_map_iff. split.
  - intros ([f m] & Heq & Hin). simpl in Heq. inversion Heq; subst.
    apply filter_In in Hin. destruct Hin as [Hin Htable]. simpl in Htable.
    apply registrations_In in Hin. destruct Hin as [Hbound Hm].
    exists m. auto.
  - intros (m & Hbound & Hm & Htable & ->).
    exists (fn, m). split; [reflexivity |].
    apply filter_In. split; [| assumption].
    apply registrations_In. auto.
Qed.

Lemma In_dict_keys {V} (d : dict V) (k : string) :
  In k (dict_keys d) <-> exists v, In (k, v) d.
Proof.
  unfold dict_keys. rewrite in_map_iff. split.
  - intros ([k' v] & Heq & Hin). simpl in Heq. subst. now exists v.
  - intros [v Hin]. now exists (k, v).
Qed.

Section CellMagicFurther.
Context {python : Interpreter}.

Lemma auto_register_magics_shell (line cell : string) (content : dict value) (ip : shell) :
  exec cell [] = OK content ->
  snd (auto_register_magics line cell ip) =
  mk_shell (dict_update (magics_line ip) (magics_of line_kind (registrations content)))
           (dict_update (magics_cell ip) (magics_of cell_kind (registrations content))).
Proof.
  intros Hexec.
  rewrite (auto_register_magics_OK line cell content ip Hexec). simpl.
  unfold pipeline. apply register_each_tables.
Qed.

(** Invoking the cell magic a second time on the same cell changes nothing:
    the outcome, shell included, is that of the first invocation. *)
Theorem auto_register_magics_idempotent (line cell : string) (ip : shell) :
  bind (auto_register_magics line cell) (fun _ => auto_register_magics line cell) ip
  = auto_register_magics line cell ip.
Proof.
  unfold bind at 1.
  destruct (exec cell []) as [content | e] eqn:Hexec.
  - rewrite !(auto_register_magics_OK line cell content _ Hexec).
    f_equal. unfold pipeline. rewrite !register_each_tables. simpl.
    now rewrite !dict_update_twice.
  - now rewrite (auto_register_magics_Raise line cell e ip Hexec).
Qed.

Lemma magics_of_get (table : MagicType -> bool) (content : dict value)
    (name : string) (fn : function) (m : MagicType) (d : dict function) :
  NoDup (dict_keys content) ->
  named_as_bound content ->
  In (name, VFunction fn) content ->
  detect_magic_type fn = Some m ->
  table m = true ->
  dict_get (dict_update d (magics_of table (registrations content))) name = Some fn.
Proof.
  intros Hnd Hnamed Hin Hm Htable.
  rewrite dict_update_get.
  rewrite (dict_get_only _ name fn); [reflexivity | |].
  - apply in_rev. rewrite rev_involutive. apply magics_of_In.
    exists m. repeat split; auto.
    + now exists name.
    + symmetry. now apply Hnamed.
  - intros w Hw. apply in_rev in Hw. apply magics_of_In in Hw.
    destruct Hw as (m' & [name' Hbound] & _ & _ & Hname).
    assert (name' = name) by (rewrite Hname; symmetry; now apply Hnamed).
    subst name'.
    assert (Heq : VFunction w = VFunction fn) by now apply (keys_functional content name).
    now inversion Heq.
Qed.

(** When the functions of a cell are bound under their own names, as [def]
    binds them, every function of the cell that has a magic type is, after
    the invocation, the magic of its name: a line magic for [LINE], a cell
    magic for [CELL], both for [LINE_CELL]. *)
Theorem auto_register_magics_available
    (line cell : string) (content : dict value) (ip : shell)
    (name : string) (fn : function) (m : MagicType) :
  exec cell [] = OK content ->
  named_as_bound content ->
  In (name, VFunction fn) content ->
  detect_magic_type fn = Some m ->
  (line_kind m = true ->
   dict_get (magics_line (snd (auto_register_magics line cell ip))) name = Some fn)
  /\ (cell_kind m = true ->
      dict_get (magics_cell (snd (auto_register_magics line cell ip))) name = Some fn).
Proof.
  intros Hexec Hnamed Hin Hm.
  rewrite (auto_register_magics_shell line cell content ip Hexec). simpl.
  assert (Hnd : NoDup (dict_keys content)) by now apply exec_fresh_keys with cell.
  split; intros Htable; now apply magics_of_get with m.
Qed.

Lemma magics_of_absent (table : MagicType -> bool) (content : dict value)
    (k : string) (d : dict function) :
  (forall name fn m, In (name, VFunction fn) content ->
     detect_magic_type fn = Some m -> table m = true -> __name__ fn <> k) ->
  dict_get (dict_update d (magics_of table (registrations content))) k = dict_get d k.
Proof.
  intros Hother.
  rewrite dict_update_get, dict_get_absent; [reflexivity |].
  intros Hin. apply In_dict_keys in Hin. destruct Hin as [fn Hin].
  apply in_rev in Hin. apply magics_of_In in Hin.
  destruct Hin as (m & [name Hbound] & Hm & Htable & Hname).
  now apply (Hother name fn m).
Qed.

Lemma dict_update_contains {V} (d : dict V) (items : list (string * V)) (k : string) :
  dict_contains d k = true -> dict_contains (dict_update d items) k = true.
Proof.
  unfold dict_contains. rewrite dict_update_get.
  now destruct (dict_get (rev items) k).
Qed.

(** The cell magic registers under the [__name__] of the functions it
    registers and nowhere else: a magic whose name is not the [__name__] of
    a function of the cell with a fitting magic type is after the
    invocation what it was before, and no name that was registered is
    lost. *)
Theorem auto_register_magics_frame
    (line cell : string) (content : dict value) (ip : shell) (k : string) :
  exec cell [] = OK content ->
  ((forall name fn m, In (name, VFunction fn) content ->
      detect_magic_type fn = Some m -> line_kind m = true -> __name__ fn <> k) ->
   dict_get (magics_line (snd (auto_register_magics line cell ip))) k
   = dict_get (magics_line ip) k)
  /\ ((forall name fn m, In (name, VFunction fn) content ->
         detect_magic_type fn = Some m -> cell_kind m = true -> __name__ fn <> k) ->
      dict_get (magics_cell (snd (auto_register_magics line cell ip))) k
      = dict_get (magics_cell ip) k)
  /\ (dict_contains (magics_line ip) k = true ->
      dict_contains (magics_line (snd (auto_register_magics line cell ip))) k = true)
  /\ (dict_contains (magics_cell ip) k = true ->
      dict_contains (magics_cell (snd (auto_register_magics line cell ip))) k = true).
Proof.
  intros Hexec.
  rewrite (auto_register_magics_shell line cell content ip Hexec). simpl.
  split; [| split; [| split]].
  - apply magics_of_absent.
  - apply magics_of_absent.
  - apply dict_update_contains.
  - apply dict_update_contains.
Qed.

(** A cell that leaves no function of a magic type (no function at all, or
    only functions the classifier leaves undetermined) registers nothing:
    the invocation returns and the shell is what it was. *)
Theorem auto_register_magics_nothing
    (line cell : string) (content : dict value) (ip : shell) :
  exec cell [] = OK content ->
  (forall name fn, In (name, VFunction fn) content -> detect_magic_type fn = None) ->
  auto_register_magics line cell ip = (OK tt, ip).
Proof.
  intros Hexec Hnone.
  rewrite (auto_register_magics_OK line cell content ip Hexec).
  unfold pipeline. fold (registrations content).
  destruct (registrations content) as [| [fn m] l] eqn:Hregs; [reflexivity |].
  assert (Hin : In (fn, m) (registrations content)) by (rewrite Hregs; now left).
  apply registrations_In in Hin. destruct Hin as [[name Hbound] Hm].
  rewrite (Hnone name fn Hbound) in Hm. discriminate Hm.
Qed.

End CellMagicFurther.

(** The namespace the cell of the four functions leaves. *)
Lemma four_functions_named :
  named_as_bound
    [ ("my_line_magic", VFunction my_line_magic);
      ("my_cell_magic", VFunction my_cell_magic);
      ("my_line_cell_magic", VFunction my_line_cell_magic);
      ("my_other_function", VFunction my_other_function) ].
Proof.
  intros name fn Hin. simpl in Hin.
  repeat (destruct Hin as [Hin | Hin]; [inversion Hin; reflexivity |]).
  contradiction.
Qed.

Lemma auto_register_magics_available_witness :
  dict_get (magics_line
              (snd (@auto_register_magics mini_python "" cell_four_functions no_magics)))
           "my_line_cell_magic" = Some my_line_cell_magic
  /\ dict_get (magics_cell
                 (snd (@auto_register_magics mini_python "" cell_four_functions no_magics)))
              "my_line_cell_magic" = Some my_line_cell_magic.
Proof.
  destruct (@auto_register_magics_available mini_python "" cell_four_functions
              [ ("my_line_magic", VFunction my_line_magic);
                ("my_cell_magic", VFunction my_cell_magic);
                ("my_line_cell_magic", VFunction my_line_cell_magic);
                ("my_other_function", VFunction my_other_function) ]
              no_magics "my_line_cell_magic" my_line_cell_magic LINE_CELL)
    as [Hline Hcell].
  - vm_compute. reflexivity.
  - exact four_functions_named.
  - simpl. auto.
  - reflexivity.
  - split; [apply Hline | apply Hcell]; reflexivity.
Defined.

Lemma auto_register_magics_frame_witness :
  dict_get (magics_line
              (snd (@auto_register_magics mini_python "" cell_four_functions
                      (mk_shell [("renamed", renamed)] []))))
           "renamed"
  = dict_get (magics_line (mk_shell [("renamed", renamed)] [])) "renamed".
Proof.
  apply (proj1 (@auto_register_magics_frame mini_python "" cell_four_functions
                  [ ("my_line_magic", VFunction my_line_magic);
                    ("my_cell_magic", VFunction my_cell_magic);
                    ("my_line_cell_magic", VFunction my_line_cell_magic);
                    ("my_other_function", VFunction my_other_function) ]
                  (mk_shell [("renamed", renamed)] []) "renamed"
                  ltac:(vm_compute; reflexivity))).
  intros name fn m Hin _ _. simpl in Hin.
  repeat (destruct Hin as [Hin | Hin]; [inversion Hin; discriminate |]).
  contradiction.
Defined.

Lemma auto_register_magics_nothing_witness :
  @auto_register_magics mini_python "" cell_foo_bar three_magics = (OK tt, three_magics).
Proof.
  apply (@auto_register_magics_nothing mini_python "" cell_foo_bar
           [("foo", VNone); ("bar", VFunction bar)] three_magics).
  - vm_compute. reflexivity.
  - intros name fn Hin. simpl in Hin.
    repeat (destruct Hin as [Hin | Hin]; [inversion Hin; reflexivity |]).
    contradiction.
Defined.
